(** * spack info: the report formatters of lib/spack/spack/cmd/info.py

    A shallow embedding of the formatting code of the [spack info] command
    and the properties of its variant report.

    - Python [int] is [Z]; [str] is [string] (one character per byte, which
      is exact for ASCII text).
    - An insertion-ordered [dict] is the list of its [items()], in iteration
      order: the order is observable in the output.
    - Code that prints is a computation in [IO]: the events written so far
      together with either the returned value or the exception raised.
    - Collaborators that live outside the module (the colour markup of
      llnl.util.tty.color, textwrap, version ordering, ...) are the
      variables of [Section Collaborators]. *)

From Stdlib Require Import List String Ascii ZArith Bool Lia DecimalString.
From Stdlib Require Import Permutation Sorted.
Import ListNotations.
Local Open Scope string_scope.
Local Open Scope Z_scope.

Set Implicit Arguments.

(* ------------------------------------------------------------------ *)
(** ** Python strings *)

Module Py.

(** [len(s)] *)
Definition len (s : string) : Z := Z.of_nat (String.length s).

(** [str(n)] for an int *)
Definition str_int (n : Z) : string := NilZero.string_of_int (Z.to_int n).

(** [n * s]: the empty string when [n <= 0] *)
Definition repeat (n : Z) (s : string) : string :=
  String.concat "" (List.repeat s (Z.to_nat n)).

(** [sep.join(l)] *)
Definition join (sep : string) (l : list string) : string :=
  String.concat sep l.

Definition lower_ascii (c : ascii) : ascii :=
  let n := nat_of_ascii c in
  if ((65 <=? n)%nat && (n <=? 90)%nat)%bool then ascii_of_nat (n + 32) else c.

(** [s.lower()] *)
Fixpoint lower (s : string) : string :=
  match s with
  | EmptyString => EmptyString
  | String c s' => String (lower_ascii c) (lower s')
  end.

Definition newline : string := String (ascii_of_nat 10) EmptyString.

(** [s.split("\n")], with the line being read carried in [cur] *)
Fixpoint split_lines_from (cur : string) (s : string) : list string :=
  match s with
  | EmptyString => [cur]
  | String c s' =>
      if Ascii.eqb c (ascii_of_nat 10)
      then cur :: split_lines_from "" s'
      else split_lines_from (cur ++ String c EmptyString) s'
  end.

Definition split_lines (s : string) : list string := split_lines_from "" s.

Fixpoint drop (n : nat) (s : string) : string :=
  match n, s with
  | O, _ => s
  | S _, EmptyString => EmptyString
  | S n', String _ s' => drop n' s'
  end.

(** [s[k:]]: a negative [k] counts from the end *)
Definition slice_from (k : Z) (s : string) : string :=
  if 0 <=? k then drop (Z.to_nat k) s
  else drop (Z.to_nat (Z.max 0 (len s + k))) s.

(** [max(xs)] of a sequence of ints; [None] where Python raises ValueError *)
Definition max_of (xs : list Z) : option Z :=
  match xs with
  | [] => None
  | x :: xs' => Some (fold_left Z.max xs' x)
  end.

End Py.

(* ------------------------------------------------------------------ *)
(** ** Python values held by a variant *)

(** The values a variant's [default] and [values] hold: [None], a bool,
    an int or a str. *)
Inductive pyval : Type :=
| PNone
| PBool (b : bool)
| PInt (n : Z)
| PStr (s : string).

(** [str(v)] *)
Definition py_str (v : pyval) : string :=
  match v with
  | PNone => "None"
  | PBool true => "True"
  | PBool false => "False"
  | PInt n => Py.str_int n
  | PStr s => s
  end.

(** [isinstance(v, bool)] *)
Definition is_bool (v : pyval) : bool :=
  match v with PBool _ => true | _ => false end.

(** The number a bool or an int stands for in a comparison. *)
Definition as_number (v : pyval) : option Z :=
  match v with
  | PBool b => Some (if b then 1 else 0)
  | PInt n => Some n
  | _ => None
  end.

(** [a == b]: bools compare as the ints 1 and 0 *)
Definition py_eq (a b : pyval) : bool :=
  match a, b with
  | PNone, PNone => true
  | PStr s, PStr t => String.eqb s t
  | _, _ =>
      match as_number a, as_number b with
      | Some x, Some y => x =? y
      | _, _ => false
      end
  end.

(** Exceptions the module can raise. *)
Inductive exn : Type :=
| TypeError
| ValueError
| IndexError
| StopIteration
| AttributeError (attr : string).

(** [a < b]: defined between numbers and between strings, a TypeError
    otherwise *)
Definition py_lt (a b : pyval) : exn + bool :=
  match a, b with
  | PStr s, PStr t => inr (String.ltb s t)
  | _, _ =>
      match as_number a, as_number b with
      | Some x, Some y => inr (x <? y)
      | _, _ => inl TypeError
      end
  end.

(* ------------------------------------------------------------------ *)
(** ** The package description the formatters read *)

(** A condition ([when]): a [spack.spec.Spec], held by its textual form.
    [Spec()], the unconditional condition, is the empty one. *)
Record Spec : Type := { spec_str : string }.

Definition Spec_empty : Spec := {| spec_str := "" |}.

(** The shapes [Variant.values] takes. [_fmt_variant] tells a tuple, a
    list and a [DisjointSetsOfValues] (given by the values it iterates
    over) from anything else. *)
Inductive variant_values : Type :=
| ValuesTuple (vs : list pyval)
| ValuesList (vs : list pyval)
| DisjointSetsOfValues (vs : list pyval)
| ValuesOther (v : pyval).

Record Variant : Type := {
  name : string;
  default : pyval;
  values : variant_values;
  description : string
}.

(** A version, held by its textual form. *)
Record Version : Type := { version_str : string }.

(** [pkg.variants_by_name(when=True)]: name -> condition -> definitions *)
Definition when_variants_t : Type := list (Spec * list Variant).

Record Package : Type := {
  pkg_name : string;
  maintainers : list string;
  (** [None] when [hasattr(pkg, "tags")] is false *)
  tags : option (list string);
  (** [None] when [hasattr(pkg.builder, "phases")] is false *)
  builder_phases : option (list string);
  (** [pkg.variants]: name -> (definition, conditions) *)
  variants : list (string * (Variant * list Spec));
  variants_by_name : list (string * when_variants_t);
  (** [pkg.versions]: version -> its [deprecated] flag *)
  versions : list (Version * bool);
  has_code : bool
}.

Definition pyval_eq_dec (a b : pyval) : {a = b} + {a <> b}.
Proof.
  decide equality; auto using Z.eq_dec, string_dec, bool_dec.
Defined.

Definition Spec_eq_dec (a b : Spec) : {a = b} + {a <> b}.
Proof.
  decide equality; auto using string_dec.
Defined.

Definition variant_values_eq_dec (a b : variant_values) : {a = b} + {a <> b}.
Proof.
  decide equality; auto using list_eq_dec, pyval_eq_dec.
Defined.

(** Modelled from the spec: [Variant.__eq__] belongs to spack.variant; two
    definitions are equal when they are structurally identical. *)
Definition Variant_eq_dec (a b : Variant) : {a = b} + {a <> b}.
Proof.
  decide equality;
    auto using string_dec, pyval_eq_dec, variant_values_eq_dec.
Defined.

Definition Variant_eqb (a b : Variant) : bool :=
  if Variant_eq_dec a b then true else false.

(** [when != spack.spec.Spec()] *)
Definition Spec_neb (a b : Spec) : bool :=
  if Spec_eq_dec a b then false else true.

(* ------------------------------------------------------------------ *)
(** ** Output *)

Inductive stream : Type :=
| sys_stdout
| other_stream (id : nat).

(** What the formatters write, call by call. *)
Inductive event : Type :=
| Cprint (out : stream) (s : string)        (** [color.cprint(s, stream=out)] *)
| Print (s : string)                        (** [print] of the line [s] *)
| PrintTypeAndValues (vs : list pyval)      (** [print(type(vs), vs)], [vs] a list *)
| PPrint (wv : when_variants_t)             (** [pprint(wv)] *)
| Write (out : stream) (s : string)         (** [out.write(s)] *)
| Colify (elts : list string) (indent : Z). (** [colify(elts, indent=indent)] *)

(** A computation that writes and may raise: the events written, then the
    exception or the value. *)
Definition IO (A : Type) : Type := (list event * (exn + A))%type.

Definition ret {A} (x : A) : IO A := ([], inr x).
Definition raise {A} (e : exn) : IO A := ([], inl e).
Definition emit (ev : event) : IO unit := ([ev], inr tt).
Definition lift {A} (r : exn + A) : IO A := ([], r).

Definition bind {A B} (m : IO A) (f : A -> IO B) : IO B :=
  match m with
  | (o, inl e) => (o, inl e)
  | (o, inr x) => let (o', r) := f x in ((o ++ o')%list, r)
  end.

Declare Scope io_scope.
Delimit Scope io_scope with io.
Notation "x <- m ;; k" := (bind m (fun x => k))
  (at level 61, m at next level, right associativity) : io_scope.
Notation "m ;; k" := (bind m (fun _ => k))
  (at level 61, right associativity) : io_scope.
Local Open Scope io_scope.

(** The events a computation writes. *)
Definition output {A} (m : IO A) : list event := fst m.

(** Whether it returns rather than raises. *)
Definition returns {A} (m : IO A) : Prop := exists x, snd m = inr x.

(** [for x in xs: body(x)] *)
Fixpoint for_each {A} (xs : list A) (body : A -> IO unit) : IO unit :=
  match xs with
  | [] => ret tt
  | x :: xs' => body x ;; for_each xs' body
  end.

(** ** [sorted] *)

(** Where [x] goes in an already sorted list: after every element it is
    not smaller than, which keeps the sort stable. *)
Fixpoint insert_sorted {A} (lt : A -> A -> exn + bool) (x : A) (l : list A)
  : exn + list A :=
  match l with
  | [] => inr [x]
  | y :: l' =>
      match lt x y with
      | inl e => inl e
      | inr true => inr (x :: l)
      | inr false =>
          match insert_sorted lt x l' with
          | inl e => inl e
          | inr r => inr (y :: r)
          end
      end
  end.

(** [sorted(l)] under the comparison [lt]. Python's sort uses only [<],
    is stable, and raises what a comparison raises; a list of fewer than
    two elements is never compared. The elements are inserted one by one,
    from left to right. *)
Definition sorted {A} (lt : A -> A -> exn + bool) (l : list A) : exn + list A :=
  fold_left
    (fun acc x => match acc with inl e => inl e | inr s => insert_sorted lt x s end)
    l (inr []).

(** [(a != "none", a) < (b != "none", b)]: tuples compare by their first
    differing item, and [False < True]. *)
Definition values_key_lt (a b : pyval) : exn + bool :=
  let ka := negb (py_eq a (PStr "none")) in
  let kb := negb (py_eq b (PStr "none")) in
  if Bool.eqb ka kb
  then (if py_eq a b then inr false else py_lt a b)
  else inr (negb ka && kb)%bool.

Definition str_lt (a b : string) : exn + bool := inr (String.ltb a b).

(* ------------------------------------------------------------------ *)
(** ** The formatters *)

Definition header_color : string := "@*b".
Definition plain_format : string := "@.".

Definition section_title (s : string) : string :=
  header_color ++ s ++ plain_format.

(** [color.cprint(s)], on the default stream *)
Definition cprint (s : string) : IO unit := emit (Cprint sys_stdout s).

(** [max(...)] of ints, raising ValueError on an empty sequence *)
Definition py_max (xs : list Z) : exn + Z :=
  match Py.max_of xs with
  | Some m => inr m
  | None => inl ValueError
  end.

(** [padder]: the closure [pad] it returns, over the [str] of the elements *)
Definition padder (str_list : list string) (extra : Z) : exn + (string -> string) :=
  match py_max (map Py.len str_list) with
  | inl e => inl e
  | inr m =>
      let length := m + extra in
      inr (fun string =>
             let padding := Z.max 0 (length - Py.len string) in
             string ++ Py.repeat padding " ")
  end.

Definition _fmt_value (v : pyval) : string :=
  match v with
  | PNone | PBool _ => Py.lower (py_str v)
  | _ => py_str v
  end.

Module VariantFormatter.

(** The attributes of a [VariantFormatter] object; [None] for one that
    has not been assigned. *)
Record self : Type := {
  self_variants : option (list (string * (Variant * list Spec)));
  headers : option (string * string * string * string);
  column_widths : option (Z * Z * Z * Z);
  fmt : option string
}.

(** The object [__init__] receives when [VariantFormatter(pkg)] is
    evaluated: the class defines no attribute of these names. *)
Definition fresh : self :=
  {| self_variants := None; headers := None; column_widths := None; fmt := None |}.

(** Reading [self.column_widths] *)
Definition get_column_widths (s : self) : exn + (Z * Z * Z * Z) :=
  match column_widths s with
  | Some w => inr w
  | None => inl (AttributeError "column_widths")
  end.

(** [__init__(self, pkg)], [cols] being the width [tty.terminal_size()]
    reports *)
Definition __init__ (s : self) (pkg : Package) (cols : Z) : exn + self :=
  let s := {| self_variants := Some (variants pkg);
              headers := headers s;
              column_widths := column_widths s;
              fmt := fmt s |} in
  let s := {| self_variants := self_variants s;
              headers := Some ("Name [Default]", "When", "Allowed values", "Description");
              column_widths := column_widths s;
              fmt := fmt s |} in
  match get_column_widths s with
  | inl e => inl e
  | inr (w0, w1, w2, w3) =>
      let max_name := Z.min w0 30 in
      let max_when := Z.min w1 30 in
      let max_vals := Z.min w2 20 in
      let max_description :=
        Z.min w3 (Z.max cols 70 - max_name - max_vals - 14) in
      let s := {| self_variants := self_variants s;
                  headers := headers s;
                  column_widths := Some (max_name, max_when, max_vals, max_description);
                  fmt := fmt s |} in
      match get_column_widths s with
      | inl e => inl e
      | inr (c0, c1, c2, _) =>
          inr {| self_variants := self_variants s;
                 headers := headers s;
                 column_widths := column_widths s;
                 fmt := Some ("%-" ++ Py.str_int (c0 + 4) ++ "s%-"
                              ++ Py.str_int (c1 + 4) ++ "s%-"
                              ++ Py.str_int (c2 + 4) ++ "s%s") |}
      end
  end.

(** [VariantFormatter(pkg)] *)
Definition new (pkg : Package) (cols : Z) : exn + self :=
  __init__ fresh pkg cols.

(** [default(self, v)]: the result is a str for a bool default and
    [v.default] itself otherwise *)
Definition default (v : Variant) : pyval :=
  let s := match default v with
           | PBool true => PStr "on"
           | _ => PStr "off"
           end in
  if negb (is_bool (default v)) then default v else s.

End VariantFormatter.

(** The collaborators are taken as total functions: what they may raise
    themselves is outside this development. *)
Section Collaborators.

(** llnl.util.tty.color *)
Variable colorize : string -> string.
Variable clen : string -> Z.
Variable cescape : string -> string.

(** [textwrap.wrap(text, width=, initial_indent=, subsequent_indent=)]
    for a width above 0 *)
Variable wrap : string -> Z -> string -> string -> list string.

(** spack.spec, spack.version, spack.package_base, spack.fetch_strategy *)
Variable VERSION_COLOR : string.
Variable Version_lt : Version -> Version -> bool.
Variable preferred_version : Package -> Version.
Variable for_package_version : Package -> Version -> string.

Definition version (s : string) : string :=
  VERSION_COLOR ++ s ++ plain_format.

(** [textwrap.wrap]: a width that is not positive is a ValueError *)
Definition textwrap_wrap (text : string) (width : Z)
           (initial_indent subsequent_indent : string) : exn + list string :=
  if width <=? 0 then inl ValueError
  else inr (wrap text width initial_indent subsequent_indent).

(** [textwrap.fill]: the wrapped lines joined by newlines *)
Definition textwrap_fill (text : string) (width : Z)
           (initial_indent subsequent_indent : string) : exn + string :=
  match textwrap_wrap text width initial_indent subsequent_indent with
  | inl e => inl e
  | inr ls => inr (Py.join Py.newline ls)
  end.

Definition print_maintainers (pkg : Package) : IO unit :=
  if 0 <? Z.of_nat (List.length (maintainers pkg)) then
    let mnt := Py.join " " (map (fun m => "@@" ++ m) (maintainers pkg)) in
    cprint "" ;;
    cprint (section_title "Maintainers: " ++ mnt)
  else ret tt.

Definition print_phases (pkg : Package) : IO unit :=
  match builder_phases pkg with
  | Some ((_ :: _) as phases) =>
      cprint "" ;;
      cprint (section_title "Installation Phases:") ;;
      let phase_str :=
        fold_left (fun acc phase => acc ++ "    " ++ phase) phases "" in
      cprint phase_str
  | _ => ret tt
  end.

Definition print_tags (pkg : Package) : IO unit :=
  cprint "" ;;
  cprint (section_title "Tags: ") ;;
  match tags pkg with
  | Some ts =>
      sorted_tags <- lift (sorted str_lt ts) ;;
      emit (Colify sorted_tags 4)
  | None => cprint "    None"
  end.

Definition _fmt_name_and_default (variant : Variant) : string :=
  colorize ("@c{" ++ name variant ++ "} @C{[" ++ _fmt_value (default variant) ++ "]}").

(** The lines of the description, each filled on its own. *)
Fixpoint fill_lines (ls : list string) (width : Z) (ind : string)
  : exn + list string :=
  match ls with
  | [] => inr []
  | line :: ls' =>
      match textwrap_fill line width ind ind with
      | inl e => inl e
      | inr f =>
          match fill_lines ls' width ind with
          | inl e => inl e
          | inr fs => inr (f :: fs)
          end
      end
  end.

Definition _fmt_variant_description (variant : Variant) (width indent : Z)
  : exn + string :=
  match fill_lines (Py.split_lines (description variant)) width
                   (Py.repeat indent " ") with
  | inl e => inl e
  | inr fs => inr (Py.join Py.newline fs)
  end.

(** The [when] line of a block: printed unless the condition is [Spec()]. *)
Definition when_line (out : stream) (when : Spec) (indent : Z) : IO unit :=
  if Spec_neb when Spec_empty then
    emit (Cprint out (Py.repeat (indent * 2) " " ++ "@B{when} "
                      ++ cescape (spec_str when)))
  else ret tt.

Definition _fmt_variant (variant : Variant) (when : Spec)
           (max_name_default_len indent : Z) (out : option stream) (cols : Z)
  : IO unit :=
  let out := match out with Some o => o | None => sys_stdout end in
  let name_and_default := _fmt_name_and_default variant in
  let name_default_len := clen name_and_default in
  values <- match values variant with
            | ValuesTuple vs | ValuesList vs | DisjointSetsOfValues vs => ret vs
            | ValuesOther v =>
                let values := [v] in
                emit (PrintTypeAndValues values) ;;
                ret values
            end ;;
  sorted_values <- lift (sorted values_key_lt values) ;;
  let pad := 4 in
  let value_indent := Py.repeat (indent + max_name_default_len + pad) " " in
  wrapped <- lift (textwrap_wrap (Py.join ", " (map _fmt_value sorted_values))
                                 (cols - 2) value_indent value_indent) ;;
  let formatted_values := Py.join Py.newline wrapped in
  let formatted_values :=
    Py.slice_from (indent + name_default_len + pad) formatted_values in
  let padding := Py.repeat pad " " in
  emit (Cprint out (Py.repeat indent " " ++ name_and_default ++ padding
                    ++ "@c{" ++ formatted_values ++ "}")) ;;
  when_line out when indent ;;
  desc <- lift (_fmt_variant_description variant (cols - 2) (indent * 3)) ;;
  emit (Write out desc) ;;
  emit (Write out Py.newline).

(** [sum(when_variants.values(), start=[])] *)
Definition all_variants_of (when_variants : when_variants_t) : list Variant :=
  List.concat (map snd when_variants).

(** [all(v == all_variants[0] for v in all_variants)] *)
Definition all_equal_first (all_variants : list Variant) : bool :=
  match all_variants with
  | [] => true
  | first :: _ => forallb (fun v => Variant_eqb v first) all_variants
  end.

Definition different_marker (name : string) : string :=
  "@r{-->} @r{" ++ name ++ "} (different)".

Definition same_marker (name : string) : string :=
  "@g{-->} @g{" ++ name ++ "} (same)".

(** [print("    ", n, "variants")] *)
Definition count_line (n : nat) : string :=
  Py.join " " ["    "; Py.str_int (Z.of_nat n); "variants"].

(** The body of the loop of [print_variants] over the names. *)
Definition print_variants_body (name : string) (when_variants : when_variants_t)
           (max_name_default_len indent cols : Z) : IO unit :=
  emit (PPrint when_variants) ;;
  if 1 <? Z.of_nat (List.length when_variants) then
    emit (Print (count_line (List.length when_variants))) ;;
    let all_variants := all_variants_of when_variants in
    (if negb (all_equal_first all_variants)
     then cprint (different_marker name)
     else cprint (same_marker name)) ;;
    for_each when_variants (fun '(when, variants) =>
      for_each variants (fun variant =>
        _fmt_variant variant when max_name_default_len indent
                     (Some sys_stdout) cols))
  else
    match when_variants with
    | [] => raise StopIteration
    | (when, variants) :: _ =>
        match variants with
        | [] => raise IndexError
        | first :: _ =>
            _fmt_variant first when max_name_default_len indent
                         (Some sys_stdout) cols
        end
    end.

Definition print_variants (pkg : Package) (cols : Z) : IO unit :=
  match variants pkg with
  | [] => emit (Print "    None")
  | _ :: _ =>
      cprint "" ;;
      cprint (section_title "Variants:") ;;
      let variants_by_name := variants_by_name pkg in
      max_name_default_len <-
        lift (py_max
                (flat_map (fun '(name, when_variants) =>
                   flat_map (fun '(_, variants) =>
                     map (fun variant => clen (_fmt_name_and_default variant))
                         variants)
                     when_variants)
                   variants_by_name)) ;;
      let indent := 4 in
      for_each variants_by_name (fun '(name, when_variants) =>
        print_variants_body name when_variants max_name_default_len indent cols)
  end.

Definition Version_eqb (a b : Version) : bool :=
  String.eqb (version_str a) (version_str b).

(** [pkg.versions[v].get("deprecated", False)], [v] a key of the dict *)
Definition is_deprecated (pkg : Package) (v : Version) : bool :=
  match find (fun '(k, _) => Version_eqb k v) (versions pkg) with
  | Some (_, d) => d
  | None => false
  end.

(** One line of a version list. *)
Definition version_line (pad : string -> string) (v : Version) (url : string)
  : string :=
  version ("    " ++ pad (version_str v)) ++ cescape url.

(** The loop that sorts the versions into safe and deprecated ones; [url]
    keeps its last value when the package has no code. *)
Fixpoint split_versions (pkg : Package) (vs : list Version) (url : string)
         (safe deprecated : list (Version * string))
  : list (Version * string) * list (Version * string) :=
  match vs with
  | [] => (safe, deprecated)
  | v :: vs' =>
      let url := if has_code pkg then for_package_version pkg v else url in
      if is_deprecated pkg v
      then split_versions pkg vs' url safe (deprecated ++ [(v, url)])%list
      else split_versions pkg vs' url (safe ++ [(v, url)])%list deprecated
  end.

Definition print_versions (pkg : Package) : IO unit :=
  cprint "" ;;
  cprint (section_title "Preferred version:  ") ;;
  match versions pkg with
  | [] =>
      cprint (version "    None") ;;
      cprint "" ;;
      cprint (section_title "Safe versions:  ") ;;
      cprint (version "    None") ;;
      cprint "" ;;
      cprint (section_title "Deprecated versions:  ") ;;
      cprint (version "    None")
  | _ :: _ =>
      let keys := map fst (versions pkg) in
      pad <- lift (padder (map version_str keys) 4) ;;
      let preferred := preferred_version pkg in
      let url := "" in
      let url := if has_code pkg then for_package_version pkg preferred else url in
      cprint (version_line pad preferred url) ;;
      sorted_versions <- lift (sorted (fun a b => inr (Version_lt a b)) keys) ;;
      let '(safe, deprecated) :=
        split_versions pkg (rev sorted_versions) url [] [] in
      for_each [("Safe", safe); ("Deprecated", deprecated)]
        (fun '(title, vers) =>
           cprint "" ;;
           cprint (section_title (title ++ " versions:  ")) ;;
           match vers with
           | [] => cprint (version "    None")
           | _ :: _ =>
               for_each vers (fun '(v, url) => cprint (version_line pad v url))
           end)
  end.

End Collaborators.

(* ------------------------------------------------------------------ *)
(** ** Concrete inputs *)

Module Sample.

(** Stand-ins for the collaborators, to run the formatters on concrete
    inputs: markup is kept as written, every character counts for the
    length, nothing is escaped and the text stays on one line. *)
Definition colorize (s : string) : string := s.
Definition clen (s : string) : Z := Py.len s.
Definition cescape (s : string) : string := s.
Definition wrap (text : string) (width : Z) (initial_indent subsequent_indent : string)
  : list string :=
  [initial_indent ++ text].

Definition shared_on : Variant :=
  {| name := "shared"; default := PBool true;
     values := ValuesTuple [PBool true; PBool false];
     description := "Build shared libraries" |}.

Definition shared_off : Variant :=
  {| name := "shared"; default := PBool false;
     values := ValuesTuple [PBool true; PBool false];
     description := "Build shared libraries" |}.

Definition zlib : Variant :=
  {| name := "zlib"; default := PBool true;
     values := ValuesTuple [PBool true; PBool false];
     description := "Use zlib" |}.

Definition bzip2 : Variant :=
  {| name := "bzip2"; default := PBool true;
     values := ValuesTuple [PBool true; PBool false];
     description := "Use bzip2" |}.

(** A variant declared with a validator instead of explicit values: its
    [values] is [None]. *)
Definition fabrics : Variant :=
  {| name := "fabrics"; default := PStr "auto";
     values := ValuesOther PNone;
     description := "Fabrics to build" |}.

Definition with_mpi : Spec := {| spec_str := "+mpi" |}.

(** A package with nothing to report. *)
Definition pkg_empty : Package :=
  {| pkg_name := "empty"; maintainers := []; tags := None;
     builder_phases := None; variants := []; variants_by_name := [];
     versions := []; has_code := false |}.

(** [shared] defined twice, with different defaults. *)
Definition two_conditions : when_variants_t :=
  [(Spec_empty, [shared_on]); (with_mpi, [shared_off])].

Definition pkg_two_conditions : Package :=
  {| pkg_name := "hdf5"; maintainers := []; tags := None;
     builder_phases := None;
     variants := [("shared", (shared_on, [Spec_empty; with_mpi]))];
     variants_by_name := [("shared", two_conditions)];
     versions := []; has_code := false |}.


(** A mapping that yields [zlib] before [bzip2]. *)
Definition pkg_unsorted : Package :=
  {| pkg_name := "tar"; maintainers := []; tags := None;
     builder_phases := None;
     variants := [("zlib", (zlib, [Spec_empty])); ("bzip2", (bzip2, [Spec_empty]))];
     variants_by_name :=
       [("zlib", [(Spec_empty, [zlib])]); ("bzip2", [(Spec_empty, [bzip2])])];
     versions := []; has_code := false |}.

(** A formatter object whose [column_widths] has been assigned. *)
Definition with_column_widths (w : Z * Z * Z * Z) : VariantFormatter.self :=
  {| VariantFormatter.self_variants := None;
     VariantFormatter.headers := None;
     VariantFormatter.column_widths := Some w;
     VariantFormatter.fmt := None |}.

End Sample.

(* ------------------------------------------------------------------ *)
(** ** The parts of the report *)

Section Parts.

Variable colorize : string -> string.
Variable clen : string -> Z.
Variable cescape : string -> string.
Variable wrap : string -> Z -> string -> string -> list string.

(** The stream a block goes to: [out or sys.stdout]. *)
Definition stream_of (out : option stream) : stream :=
  match out with Some o => o | None => sys_stdout end.

(** The values [_fmt_variant] sorts. *)
Definition values_list (v : Variant) : list pyval :=
  match values v with
  | ValuesTuple vs | ValuesList vs | DisjointSetsOfValues vs => vs
  | ValuesOther x => [x]
  end.

(** What is printed while the values are normalized. *)
Definition normalization_events (v : Variant) : list event :=
  match values v with
  | ValuesOther x => [PrintTypeAndValues [x]]
  | _ => []
  end.

(** The text of the line [name [default]    values]. *)
Definition values_line (v : Variant) (sorted_values : list pyval)
           (max_name_default_len indent cols : Z) : string :=
  let value_indent := Py.repeat (indent + max_name_default_len + 4) " " in
  Py.repeat indent " " ++ _fmt_name_and_default colorize v ++ Py.repeat 4 " "
  ++ "@c{"
  ++ Py.slice_from (indent + clen (_fmt_name_and_default colorize v) + 4)
       (Py.join Py.newline
          (wrap (Py.join ", " (map _fmt_value sorted_values)) (cols - 2)
                value_indent value_indent))
  ++ "}".

(** The text of the [when] line. *)
Definition when_text (when : Spec) (indent : Z) : string :=
  Py.repeat (indent * 2) " " ++ "@B{when} " ++ cescape (spec_str when).

(** The wrapped description. *)
Definition description_text (v : Variant) (width indent : Z) : string :=
  Py.join Py.newline
    (map (fun line =>
            Py.join Py.newline
              (wrap line width (Py.repeat indent " ") (Py.repeat indent " ")))
         (Py.split_lines (description v))).

(** The events of a block for the sorted values [sorted_values]. *)
Definition block_events (v : Variant) (when : Spec) (sorted_values : list pyval)
           (max_name_default_len indent : Z) (out : stream) (cols : Z)
  : list event :=
  (Cprint out (values_line v sorted_values max_name_default_len indent cols)
   :: (if Spec_eq_dec when Spec_empty then []
       else [Cprint out (when_text when indent)])
   ++ [Write out (description_text v (cols - 2) (indent * 3));
       Write out Py.newline])%list.

(** Whether the values of a variant can be sorted. *)
Definition sortable (v : Variant) : bool :=
  match sorted values_key_lt (values_list v) with
  | inr _ => true
  | inl _ => false
  end.

(** The blocks of every (condition, definition) pair of a mapping, in
    the order of the mapping. *)
Definition rendered_pairs (when_variants : when_variants_t)
           (max_name_default_len indent cols : Z) : list event :=
  flat_map (fun '(when, variants) =>
    flat_map (fun variant =>
      output (_fmt_variant colorize clen cescape wrap variant when
                           max_name_default_len indent (Some sys_stdout) cols))
      variants)
    when_variants.

(** The marker [print_variants] prints for a name with several
    conditions. *)
Definition marker_of (name : string) (when_variants : when_variants_t) : string :=
  if all_equal_first (all_variants_of when_variants)
  then same_marker name else different_marker name.

(** The lengths [print_variants] takes the maximum of. *)
Definition name_default_lens (pkg : Package) : list Z :=
  flat_map (fun '(name, when_variants) =>
    flat_map (fun '(_, variants) =>
      map (fun variant => clen (_fmt_name_and_default colorize variant))
          variants)
      when_variants)
    (variants_by_name pkg).

(** The mappings of a name whose blocks can all be written: with one
    condition, a first definition whose values sort; with several, values
    that sort in every definition. *)
Definition renderable (when_variants : when_variants_t) : Prop :=
  match when_variants with
  | [] => False
  | [(_, variants)] =>
      exists first rest, variants = first :: rest /\ sortable first = true
  | _ =>
      Forall (fun '(_, variants) => Forall (fun v => sortable v = true) variants)
             when_variants
  end.

End Parts.

(** The exceptions [print_variants] raises: never an AttributeError. *)
Definition report_exception (e : exn) : Prop :=
  e = TypeError \/ e = ValueError \/ e = IndexError \/ e = StopIteration.

(* ------------------------------------------------------------------ *)
(** ** The other formatters and the driver *)

Definition upper_ascii (c : ascii) : ascii :=
  let n := nat_of_ascii c in
  if ((97 <=? n)%nat && (n <=? 122)%nat)%bool then ascii_of_nat (n - 32) else c.

(** [s.capitalize()] *)
Definition py_capitalize (s : string) : string :=
  match s with
  | EmptyString => EmptyString
  | String c s' => String (upper_ascii c) (Py.lower s')
  end.

(** What a value is in a comparison: [None], a number (a bool or an int)
    or a string. *)
Inductive kind : Type := KNone | KNumber | KString.

Definition kind_of (v : pyval) : kind :=
  match v with
  | PNone => KNone
  | PBool _ | PInt _ => KNumber
  | PStr _ => KString
  end.

Definition kind_eqb (a b : kind) : bool :=
  match a, b with
  | KNone, KNone | KNumber, KNumber | KString, KString => true
  | _, _ => false
  end.

(** [v == "none"] *)
Definition is_none_token (v : pyval) : bool := py_eq v (PStr "none").

(** Whether the values other than "none" are all of one kind. *)
Definition one_kind (l : list pyval) : bool :=
  match filter (fun v => negb (is_none_token v)) l with
  | [] => true
  | v :: rest => forallb (fun w => kind_eqb (kind_of w) (kind_of v)) rest
  end.

(** The attributes of a package object the remaining formatters and the
    driver read, next to those of [Package]. *)
Record PackageDetails : Type := {
  package : Package;
  build_system_class : string;
  (** [pkg.__doc__] *)
  doc : option string;
  homepage : string;
  (** [hasattr(pkg, "executables")] and the like *)
  has_executables : bool;
  has_libraries : bool;
  has_determine_version : bool;
  has_determine_variants : bool;
  (** [getattr(pkg, "build_time_test_callbacks", None)] and the like *)
  build_time_test_callbacks : option (list string);
  install_time_test_callbacks : option (list string);
  (** whether [getattr(pkg, name, False)] is true *)
  truthy_attribute : string -> bool;
  (** the names in [pkg.dependencies_of_type(dt.flag_from_string(deptype))] *)
  dependencies_of_type : string -> list string;
  (** [pkg.provided]: condition -> the virtual specs provided under it *)
  provided : list (Spec * list Spec)
}.

(** The command line of [spack info]. *)
Module Args.

Record t : Type := {
  package_name : string;
  all : bool;
  maintainers : bool;
  detectable : bool;
  tags : bool;
  no_versions : bool;
  no_variants : bool;
  phases : bool;
  no_dependencies : bool;
  virtuals : bool;
  tests : bool
}.

End Args.

(** [a <= b] between two sets of specs, given by their elements *)
Definition spec_subset (a b : list Spec) : bool :=
  forallb (fun x => existsb (fun y => if Spec_eq_dec x y then true else false) b) a.

(** The shape of sorted values: the "none" tokens, then values of the one
    kind [k]. *)
Definition none_first (k : kind) (s : list pyval) : Prop :=
  exists n others,
    s = (List.repeat (PStr "none") n ++ others)%list
    /\ Forall (fun v => is_none_token v = false /\ kind_of v = k) others.

Section Driver.

Variable colorize : string -> string.
Variable clen : string -> Z.
Variable cescape : string -> string.
Variable wrap : string -> Z -> string -> string -> list string.
Variable VERSION_COLOR : string.
Variable Version_lt : Version -> Version -> bool.
Variable preferred_version : Package -> Version.
Variable for_package_version : Package -> Version -> string.

(** [pkg.format_doc(indent=)] *)
Variable format_doc : PackageDetails -> Z -> string.
(** [spack.install_test.test_function_names(pkg, add_virtuals=True)] *)
Variable test_function_names : PackageDetails -> list string.
(** [Spec.__lt__] and [Spec.colorized()] *)
Variable Spec_lt : Spec -> Spec -> bool.
Variable colorized : Spec -> string.
(** The package object [info] builds from the name on the command line;
    the lookup in the repository is taken to succeed. *)
Variable package_of : string -> PackageDetails.

Definition print_dependencies (pkg : PackageDetails) : IO unit :=
  for_each ["build"; "link"; "run"] (fun deptype =>
    cprint "" ;;
    cprint (section_title (py_capitalize deptype ++ " Dependencies:")) ;;
    deps <- lift (sorted str_lt (dependencies_of_type pkg deptype)) ;;
    match deps with
    | _ :: _ => emit (Colify deps 4)
    | [] => cprint "    None"
    end).

Definition print_detectable (pkg : PackageDetails) : IO unit :=
  cprint "" ;;
  cprint (section_title "Externally Detectable: ") ;;
  if (has_executables pkg || has_libraries pkg)%bool then
    let find_attributes := [] in
    let find_attributes :=
      if has_determine_version pkg
      then (find_attributes ++ ["version"])%list else find_attributes in
    let find_attributes :=
      if has_determine_variants pkg
      then (find_attributes ++ ["variants"])%list else find_attributes in
    cprint ("    True"
            ++ match find_attributes with
               | _ :: _ => " (" ++ Py.join ", " find_attributes ++ ")"
               | [] => ""
               end)
  else cprint "    False".

(** The names [colify] is given, or the line "None" when there is none. *)
Definition colify_sorted_or_none (names : list string) : IO unit :=
  match names with
  | _ :: _ =>
      sorted_names <- lift (sorted str_lt names) ;;
      emit (Colify sorted_names 4)
  | [] => cprint "    None"
  end.

Definition print_tests (pkg : PackageDetails) : IO unit :=
  for_each [(build_time_test_callbacks pkg, "Build");
            (install_time_test_callbacks pkg, "Install")]
    (fun '(callbacks, phase) =>
       cprint "" ;;
       cprint (section_title ("Available " ++ phase ++ " Phase Test Methods:")) ;;
       let names :=
         match callbacks with
         | Some ((_ :: _) as callbacks) => filter (truthy_attribute pkg) callbacks
         | _ => []
         end in
       colify_sorted_or_none names) ;;
  cprint "" ;;
  cprint (section_title "Stand-Alone/Smoke Test Methods:") ;;
  let names := test_function_names pkg in
  colify_sorted_or_none names.

(** [(when1, specs1) < (when2, specs2)]: the conditions decide unless they
    are equal, and sets compare by strict inclusion. *)
Definition provided_item_lt (a b : Spec * list Spec) : exn + bool :=
  if Spec_eq_dec (fst a) (fst b)
  then (if (spec_subset (snd a) (snd b) && spec_subset (snd b) (snd a))%bool
        then inr false
        else inr (spec_subset (snd a) (snd b)))
  else inr (Spec_lt (fst a) (fst b)).

Definition print_virtuals (pkg : PackageDetails) : IO unit :=
  cprint "" ;;
  cprint (section_title "Virtual Packages: ") ;;
  match provided pkg with
  | _ :: _ =>
      items <- lift (sorted provided_item_lt (provided pkg)) ;;
      for_each (rev items) (fun '(when, specs) =>
        let line := "    " ++ colorized when ++ " provides "
                    ++ Py.join ", " (map colorized specs) in
        emit (Print line))
  | [] => cprint "    None"
  end.

(** The sections of the report with the flags that select them, in the
    order [info] runs them. *)
Definition sections (args : Args.t) (pkg : PackageDetails) (cols : Z)
  : list (bool * IO unit) :=
  [ ((Args.all args || Args.maintainers args)%bool,
     print_maintainers (package pkg));
    ((Args.all args || Args.detectable args)%bool, print_detectable pkg);
    ((Args.all args || Args.tags args)%bool, print_tags (package pkg));
    ((Args.all args || negb (Args.no_versions args))%bool,
     print_versions cescape VERSION_COLOR Version_lt preferred_version
                    for_package_version (package pkg));
    ((Args.all args || negb (Args.no_variants args))%bool,
     print_variants colorize clen cescape wrap (package pkg) cols);
    ((Args.all args || Args.phases args)%bool, print_phases (package pkg));
    ((Args.all args || negb (Args.no_dependencies args))%bool,
     print_dependencies pkg);
    ((Args.all args || Args.virtuals args)%bool, print_virtuals pkg);
    ((Args.all args || Args.tests args)%bool, print_tests pkg) ].

(** [info(parser, args)], [cols] being the width of the terminal *)
Definition info (args : Args.t) (cols : Z) : IO unit :=
  let pkg := package_of (Args.package_name args) in
  let header :=
    header_color ++ build_system_class pkg ++ ":   " ++ plain_format
    ++ pkg_name (package pkg) in
  cprint header ;;
  cprint "" ;;
  cprint (section_title "Description:") ;;
  match doc pkg with
  | Some (String _ _) => cprint (cescape (format_doc pkg 4))
  | _ => cprint "    None"
  end ;;
  cprint (section_title "Homepage: " ++ homepage pkg) ;;
  for_each (sections args pkg cols) (fun '(print_it, func) =>
    if print_it then func else ret tt) ;;
  cprint "".

End Driver.

(** Concrete inputs for the driver, with stand-ins for its collaborators. *)
Module SampleDriver.

Definition zlib_package : Package :=
  {| pkg_name := "zlib"; maintainers := ["alice"];
     tags := Some ["compression"; "build-tools"];
     builder_phases := Some ["install"];
     variants := [("shared", (Sample.shared_on, [Spec_empty; Sample.with_mpi]))];
     variants_by_name := [("shared", Sample.two_conditions)];
     versions := [({| version_str := "1.2" |}, false);
                  ({| version_str := "1.1" |}, true)];
     has_code := false |}.

Definition zlib : PackageDetails :=
  {| package := zlib_package;
     build_system_class := "MakefilePackage";
     doc := Some "A compression library";
     homepage := "https://zlib.net";
     has_executables := false;
     has_libraries := true;
     has_determine_version := true;
     has_determine_variants := false;
     build_time_test_callbacks := Some ["check"];
     install_time_test_callbacks := None;
     truthy_attribute := fun name => String.eqb name "check";
     dependencies_of_type :=
       fun deptype => if String.eqb deptype "build" then ["gmake"; "cmake"] else [];
     provided := [({| spec_str := "@1.2:" |}, [{| spec_str := "zlib-api" |}])] |}.

Definition VERSION_COLOR : string := "@c".
Definition Version_lt (a b : Version) : bool :=
  String.ltb (version_str a) (version_str b).
Definition preferred_version (pkg : Package) : Version := {| version_str := "1.2" |}.
Definition for_package_version (pkg : Package) (v : Version) : string :=
  "https://zlib.net/zlib-" ++ version_str v ++ ".tar.gz".
Definition format_doc (pkg : PackageDetails) (indent : Z) : string :=
  Py.repeat indent " " ++ "A compression library".
Definition test_function_names (pkg : PackageDetails) : list string := [].
Definition Spec_lt (a b : Spec) : bool := String.ltb (spec_str a) (spec_str b).
Definition colorized (s : Spec) : string := spec_str s.
Definition package_of (name : string) : PackageDetails := zlib.

(** [spack info --all zlib] and [spack info --all --no-variants zlib] *)
Definition args_all : Args.t :=
  {| Args.package_name := "zlib"; Args.all := true; Args.maintainers := false;
     Args.detectable := false; Args.tags := false; Args.no_versions := false;
     Args.no_variants := false; Args.phases := false;
     Args.no_dependencies := false; Args.virtuals := false;
     Args.tests := false |}.

Definition args_all_no_variants : Args.t :=
  {| Args.package_name := "zlib"; Args.all := true; Args.maintainers := false;
     Args.detectable := false; Args.tags := false; Args.no_versions := false;
     Args.no_variants := true; Args.phases := false;
     Args.no_dependencies := false; Args.virtuals := false;
     Args.tests := false |}.

End SampleDriver.

(* ------------------------------------------------------------------ *)
(** ** The parts of the other sections *)

(** [r] is [names] in sorted order. *)
Definition sorted_names (names r : list string) : Prop :=
  Permutation names r /\ Sorted (fun a b => String.leb a b = true) r.

(** What a section shows for a list of names: the names in columns, or
    the line "None". *)
Definition names_or_none (names : list string) : list event :=
  match names with
  | _ :: _ => [Colify names 4]
  | [] => [Cprint sys_stdout "    None"]
  end.

(** The callbacks of a phase that are attributes of the package. *)
Definition callable_names (pkg : PackageDetails) (callbacks : option (list string))
  : list string :=
  filter (truthy_attribute pkg)
         (match callbacks with Some l => l | None => [] end).

(** What the sections that are selected write, one after the other. *)
Definition selected_output (s : list (bool * IO unit)) : list event :=
  flat_map (fun '((print_it, func) : bool * IO unit) =>
              if print_it then output func else []) s.

Section Listings.

Variable cescape : string -> string.
Variable VERSION_COLOR : string.
Variable for_package_version : Package -> Version -> string.
Variable format_doc : PackageDetails -> Z -> string.
Variable colorized : Spec -> string.

(** A version with the URL shown next to it. *)
Definition with_url (pkg : Package) (v : Version) : Version * string :=
  (v, if has_code pkg then for_package_version pkg v else "").

(** The "Safe" or "Deprecated" part of the version report. *)
Definition version_section (title : string) (pad : string -> string)
           (vers : list (Version * string)) : list event :=
  ([Cprint sys_stdout ""; Cprint sys_stdout (section_title (title ++ " versions:  "))]
   ++ match vers with
      | _ :: _ =>
          map (fun '(v, url) =>
                 Cprint sys_stdout (version_line cescape VERSION_COLOR pad v url))
              vers
      | [] => [Cprint sys_stdout (version VERSION_COLOR "    None")]
      end)%list.


(** The lines [info] writes before the sections. *)
Definition preamble (pkg : PackageDetails) : list event :=
  [Cprint sys_stdout (header_color ++ build_system_class pkg ++ ":   "
                      ++ plain_format ++ pkg_name (package pkg));
   Cprint sys_stdout "";
   Cprint sys_stdout (section_title "Description:");
   Cprint sys_stdout (match doc pkg with
                      | Some (String _ _) => cescape (format_doc pkg 4)
                      | _ => "    None"
                      end);
   Cprint sys_stdout (section_title "Homepage: " ++ homepage pkg)].

End Listings.

(* ------------------------------------------------------------------ *)
(** ** Reasoning about [IO] *)

Lemma output_bind {A B} (m : IO A) (f : A -> IO B) :
  output (bind m f)
  = (output m ++ match snd m with
                 | inr x => output (f x)
                 | inl _ => []
                 end)%list.
Proof.
  destruct m as [o [e | x]]; simpl.
  - now rewrite app_nil_r.
  - now destruct (f x).
Qed.

Lemma snd_bind {A B} (m : IO A) (f : A -> IO B) :
  snd (bind m f) = match snd m with
                   | inr x => snd (f x)
                   | inl e => inl e
                   end.
Proof.
  destruct m as [o [e | x]]; simpl; [reflexivity | now destruct (f x)].
Qed.

Lemma returns_bind_inv {A B} (m : IO A) (f : A -> IO B) :
  returns (bind m f) -> exists x, snd m = inr x /\ returns (f x).
Proof.
  unfold returns. rewrite snd_bind.
  destruct (snd m) as [e | x]; intros [y Hy]; [discriminate | eauto].
Qed.

Lemma returns_bind_intro {A B} (m : IO A) (f : A -> IO B) (x : A) :
  snd m = inr x -> returns (f x) -> returns (bind m f).
Proof.
  unfold returns. rewrite snd_bind. now intros ->.
Qed.

Lemma returns_unit (m : IO unit) : returns m <-> snd m = inr tt.
Proof.
  split; [intros [[] H]; exact H | intros H; now exists tt].
Qed.

(** A loop that returns has run every iteration to its end, and its
    output is the iterations' outputs in order. *)
Lemma for_each_returns_inv {A} (body : A -> IO unit) (xs : list A) :
  returns (for_each xs body) ->
  Forall (fun x => returns (body x)) xs
  /\ output (for_each xs body) = flat_map (fun x => output (body x)) xs.
Proof.
  induction xs as [| x xs IH]; simpl; intros H.
  - split; [constructor | reflexivity].
  - destruct (returns_bind_inv _ _ H) as [[] [Hx Hrest]].
    destruct (IH Hrest) as [Hall Hout].
    split.
    + constructor; [now apply returns_unit | exact Hall].
    + rewrite output_bind, Hx, Hout. reflexivity.
Qed.

Lemma for_each_returns_intro {A} (body : A -> IO unit) (xs : list A) :
  Forall (fun x => returns (body x)) xs -> returns (for_each xs body).
Proof.
  induction 1 as [| x xs Hx _ IH]; simpl.
  - now exists tt.
  - apply returns_unit in Hx. now apply returns_bind_intro with (x := tt).
Qed.

(** The part of a concatenated output that one element contributes. *)
Lemma flat_map_in_split {A B} (f : A -> list B) (x : A) (xs : list A) :
  In x xs -> exists pre post, flat_map f xs = (pre ++ f x ++ post)%list.
Proof.
  intros H. destruct (in_split _ _ H) as [l1 [l2 ->]].
  exists (flat_map f l1), (flat_map f l2).
  rewrite flat_map_app. reflexivity.
Qed.

(** A list of fewer than two elements is sorted without a comparison. *)
Lemma sorted_singleton {A} (lt : A -> A -> exn + bool) (x : A) :
  sorted lt [x] = inr [x].
Proof. reflexivity. Qed.


(* ------------------------------------------------------------------ *)
(** ** The variant block *)

Section VariantBlock.

Variable colorize : string -> string.
Variable clen : string -> Z.
Variable cescape : string -> string.
Variable wrap : string -> Z -> string -> string -> list string.

Lemma fill_lines_positive (ls : list string) (width : Z) (ind : string) :
  0 < width ->
  fill_lines wrap ls width ind
  = inr (map (fun line => Py.join Py.newline (wrap line width ind ind)) ls).
Proof.
  intros Hw. induction ls as [| l ls IH]; simpl; [reflexivity |].
  unfold textwrap_fill, textwrap_wrap.
  destruct (Z.leb_spec width 0); [lia |].
  now rewrite IH.
Qed.

Lemma fill_lines_not_positive (ls : list string) (width : Z) (ind : string) :
  width <= 0 -> ls <> [] -> fill_lines wrap ls width ind = inl ValueError.
Proof.
  intros Hw Hls. destruct ls as [| l ls]; [congruence |]. simpl.
  unfold textwrap_fill, textwrap_wrap.
  destruct (Z.leb_spec width 0); [reflexivity | lia].
Qed.

(** [_fmt_variant] step by step: it raises what sorting the values
    raises, then a ValueError when the terminal is at most two columns
    wide, and otherwise writes the block and returns. *)
Lemma fmt_variant_run (v : Variant) (when : Spec)
      (max_name_default_len indent : Z) (out : option stream) (cols : Z) :
  _fmt_variant colorize clen cescape wrap v when max_name_default_len indent out cols
  = match sorted values_key_lt (values_list v) with
    | inl e => (normalization_events v, inl e)
    | inr sorted_values =>
        if cols - 2 <=? 0 then (normalization_events v, inl ValueError)
        else ((normalization_events v
               ++ block_events colorize clen cescape wrap v when sorted_values
                               max_name_default_len indent
                               (stream_of out) cols)%list,
              inr tt)
    end.
Proof.
  unfold _fmt_variant, values_list, normalization_events, block_events,
    when_line, Spec_neb, _fmt_variant_description, textwrap_wrap.
  destruct (values v) as [vs | vs | vs | x]; simpl;
    try (match goal with
         | |- context [sorted values_key_lt ?l] =>
             destruct (sorted values_key_lt l) as [e | sv]
         end; simpl; [reflexivity |]);
    (destruct (Z.leb_spec (cols - 2) 0) as [Hc | Hc]; simpl; [reflexivity |]);
    assert (Hw : 0 < cols - 2) by lia;
    rewrite (fill_lines_positive _ _ Hw);
    destruct (Spec_eq_dec when Spec_empty); reflexivity.
Qed.

(** A block is written to its end exactly when the values sort and the
    terminal is more than two columns wide. *)
Lemma fmt_variant_returns_iff (v : Variant) (when : Spec)
      (max_name_default_len indent : Z) (out : option stream) (cols : Z) :
  returns (_fmt_variant colorize clen cescape wrap v when
                        max_name_default_len indent out cols)
  <-> sortable v = true /\ 2 < cols.
Proof.
  rewrite returns_unit, fmt_variant_run. unfold sortable.
  destruct (sorted values_key_lt (values_list v)) as [e | sv]; simpl.
  - split; [discriminate | intros [H _]; discriminate].
  - destruct (Z.leb_spec (cols - 2) 0); simpl.
    + split; [discriminate | intros [_ H']; lia].
    + split; [intros _; split; [reflexivity | lia] | reflexivity].
Qed.

End VariantBlock.

(* ------------------------------------------------------------------ *)
(** ** The variant report *)

Section VariantReport.

Variable colorize : string -> string.
Variable clen : string -> Z.
Variable cescape : string -> string.
Variable wrap : string -> Z -> string -> string -> list string.

Local Abbreviation fmt_variant := (_fmt_variant colorize clen cescape wrap).
Local Abbreviation body := (print_variants_body colorize clen cescape wrap).
Local Abbreviation report := (print_variants colorize clen cescape wrap).

(** The two nested loops over the conditions and their definitions. *)
Lemma pairs_loop_output (when_variants : when_variants_t) (m indent cols : Z) :
  returns (for_each when_variants (fun '(when, variants) =>
             for_each variants (fun variant =>
               fmt_variant variant when m indent (Some sys_stdout) cols))) ->
  output (for_each when_variants (fun '(when, variants) =>
            for_each variants (fun variant =>
              fmt_variant variant when m indent (Some sys_stdout) cols)))
  = rendered_pairs colorize clen cescape wrap when_variants m indent cols.
Proof.
  intros H. apply for_each_returns_inv in H. destruct H as [Hall ->].
  unfold rendered_pairs.
  induction Hall as [| [when vs] l Hx _ IH]; simpl; [reflexivity |].
  apply for_each_returns_inv in Hx. destruct Hx as [_ ->].
  now rewrite IH.
Qed.

(** The loop body on a name with two or more conditions. *)
Lemma body_several_conditions (name : string) (when_variants : when_variants_t)
      (m indent cols : Z) :
  (2 <= List.length when_variants)%nat ->
  returns (body name when_variants m indent cols) ->
  output (body name when_variants m indent cols)
  = ([PPrint when_variants;
      Print (count_line (List.length when_variants));
      Cprint sys_stdout (marker_of name when_variants)]
     ++ rendered_pairs colorize clen cescape wrap when_variants m indent cols)%list.
Proof.
  intros Hlen. unfold print_variants_body, marker_of.
  destruct (Z.ltb_spec 1 (Z.of_nat (List.length when_variants))) as [_ | Hn];
    [| lia].
  intros H.
  apply returns_bind_inv in H. destruct H as [[] [_ H]].
  apply returns_bind_inv in H. destruct H as [[] [_ H]].
  apply returns_bind_inv in H. destruct H as [[] [Hmark H]].
  rewrite !output_bind. simpl snd. cbv iota.
  rewrite Hmark, (pairs_loop_output _ _ _ _ H).
  destruct (all_equal_first (all_variants_of when_variants)); reflexivity.
Qed.

(** The loop body on a name with one condition: only the first
    definition under it reaches [_fmt_variant]. *)
Lemma body_one_condition (name : string) (when : Spec) (first : Variant)
      (rest : list Variant) (m indent cols : Z) :
  body name [(when, first :: rest)] m indent cols
  = (PPrint [(when, first :: rest)]
       :: output (fmt_variant first when m indent (Some sys_stdout) cols),
     snd (fmt_variant first when m indent (Some sys_stdout) cols)).
Proof.
  unfold print_variants_body. simpl.
  now destruct (fmt_variant first when m indent (Some sys_stdout) cols).
Qed.

(** A report that returns is the two header lines followed by what the
    loop body writes for each name, in the iteration order of the
    mapping. *)
Lemma print_variants_output (pkg : Package) (cols : Z) :
  variants pkg <> [] ->
  returns (report pkg cols) ->
  exists m,
    py_max (name_default_lens colorize clen pkg) = inr m
    /\ output (report pkg cols)
       = ([Cprint sys_stdout ""; Cprint sys_stdout (section_title "Variants:")]
          ++ flat_map (fun '(name, when_variants) =>
                         output (body name when_variants m 4 cols))
                      (variants_by_name pkg))%list
    /\ Forall (fun '(name, when_variants) =>
                 returns (body name when_variants m 4 cols))
              (variants_by_name pkg).
Proof.
  intros Hne. unfold print_variants.
  destruct (variants pkg) as [| v0 vs]; [congruence |].
  fold (name_default_lens colorize clen pkg).
  intros H.
  apply returns_bind_inv in H. destruct H as [[] [_ H]].
  apply returns_bind_inv in H. destruct H as [[] [_ H]].
  apply returns_bind_inv in H. destruct H as [m [Hm H]].
  exists m. simpl in Hm. split; [exact Hm |].
  rewrite !output_bind. simpl snd. cbv iota. rewrite Hm.
  apply for_each_returns_inv in H. destruct H as [Hall Hout].
  split.
  - rewrite Hout. simpl. f_equal. f_equal.
    apply flat_map_ext. now intros [n wv].
  - eapply Forall_impl; [| exact Hall]. now intros [n wv].
Qed.

(** What the loop body writes for a name of the mapping is a segment of
    the report. *)
Lemma print_variants_segment (pkg : Package) (cols : Z)
      (name : string) (when_variants : when_variants_t) :
  variants pkg <> [] ->
  returns (report pkg cols) ->
  In (name, when_variants) (variants_by_name pkg) ->
  exists m pre post,
    py_max (name_default_lens colorize clen pkg) = inr m
    /\ returns (body name when_variants m 4 cols)
    /\ output (report pkg cols)
       = (pre ++ output (body name when_variants m 4 cols) ++ post)%list.
Proof.
  intros Hne Hret Hin.
  destruct (print_variants_output pkg cols Hne Hret) as [m [Hm [Hout Hall]]].
  destruct (flat_map_in_split
              (fun '(name, when_variants) =>
                 output (body name when_variants m 4 cols))
              _ _ Hin) as [pre [post Hsplit]].
  exists m, ([Cprint sys_stdout ""; Cprint sys_stdout (section_title "Variants:")]
             ++ pre)%list, post.
  split; [exact Hm |]. split.
  - rewrite Forall_forall in Hall. exact (Hall _ Hin).
  - rewrite Hout, Hsplit. now rewrite <- app_assoc.
Qed.

(** On a terminal more than two columns wide the loop body returns
    exactly on the renderable mappings. *)
Lemma body_returns_iff (name : string) (when_variants : when_variants_t)
      (m indent cols : Z) :
  2 < cols ->
  returns (body name when_variants m indent cols) <-> renderable when_variants.
Proof.
  intros Hc.
  assert (Hfmt : forall v when,
             returns (fmt_variant v when m indent (Some sys_stdout) cols)
             <-> sortable v = true).
  { intros v when. rewrite fmt_variant_returns_iff. tauto. }
  assert (Hloop : forall l : when_variants_t,
             returns (for_each l (fun '(when, variants) =>
                        for_each variants (fun variant =>
                          fmt_variant variant when m indent (Some sys_stdout) cols)))
             <-> Forall (fun '(_, variants) =>
                           Forall (fun v => sortable v = true) variants) l).
  { intros l. split.
    - intros H. apply for_each_returns_inv in H. destruct H as [H _].
      eapply Forall_impl; [| exact H]. intros [when vs] Hvs.
      apply for_each_returns_inv in Hvs. destruct Hvs as [Hvs _].
      eapply Forall_impl; [| exact Hvs]. intros v. apply Hfmt.
    - intros H. apply for_each_returns_intro.
      eapply Forall_impl; [| exact H]. intros [when vs] Hvs.
      apply for_each_returns_intro.
      eapply Forall_impl; [| exact Hvs]. intros v. apply Hfmt. }
  destruct when_variants as [| [when vs] [| p l]].
  - simpl. split; [intros [[] H]; discriminate | contradiction].
  - destruct vs as [| first rest].
    + simpl. split; [intros [[] H]; discriminate |].
      intros [f [r [H _]]]. discriminate.
    + unfold returns. rewrite body_one_condition. simpl snd.
      fold (returns (fmt_variant first when m indent (Some sys_stdout) cols)).
      rewrite Hfmt. simpl. split; [eauto |].
      now intros [f [r [[= <- <-] H]]].
  - unfold renderable. rewrite <- Hloop.
    unfold print_variants_body.
    destruct (Z.ltb_spec 1 (Z.of_nat (List.length ((when, vs) :: p :: l))))
      as [_ | Hn]; [| simpl List.length in Hn; lia].
    split.
    + intros H.
      apply returns_bind_inv in H. destruct H as [[] [_ H]].
      apply returns_bind_inv in H. destruct H as [[] [_ H]].
      apply returns_bind_inv in H. destruct H as [[] [_ H]].
      exact H.
    + intros H.
      apply returns_bind_intro with (x := tt); [reflexivity |].
      apply returns_bind_intro with (x := tt); [reflexivity |].
      apply returns_bind_intro with (x := tt); [| exact H].
      now destruct (negb _).
Qed.

(** X12. When the report returns: on a terminal more than two columns
    wide, exactly when the mapping holds a definition and every name of it
    is renderable. *)
Lemma print_variants_returns_iff (pkg : Package) (cols : Z) :
  variants pkg <> [] ->
  2 < cols ->
  returns (report pkg cols)
  <-> name_default_lens colorize clen pkg <> []
      /\ Forall (fun '(_, when_variants) => renderable when_variants)
                (variants_by_name pkg).
Proof.
  intros Hne Hc. split.
  - intros H.
    destruct (print_variants_output pkg cols Hne H) as [m [Hm [_ Hall]]].
    split.
    + intros E. rewrite E in Hm. discriminate.
    + eapply Forall_impl; [| exact Hall]. intros [n wv].
      now apply body_returns_iff.
  - intros [Hlens Hall]. unfold print_variants.
    destruct (variants pkg) as [| v0 vs]; [congruence |].
    fold (name_default_lens colorize clen pkg).
    apply returns_bind_intro with (x := tt); [reflexivity |].
    apply returns_bind_intro with (x := tt); [reflexivity |].
    destruct (name_default_lens colorize clen pkg) as [| z zs] eqn:E;
      [congruence |].
    apply returns_bind_intro with (x := fold_left Z.max zs z); [reflexivity |].
    apply for_each_returns_intro.
    eapply Forall_impl; [| exact Hall]. intros [n wv].
    now apply body_returns_iff.
Qed.



(** C7. A block that is written to its end holds the line of the name
    and values, then no [when] line when the condition is the
    unconditional [Spec()] and exactly one, carrying the escaped text of
    the condition, when it is not, then the description and a newline. *)
Theorem fmt_variant_when_line
        (variant : Variant) (when : Spec) (max_name_default_len indent : Z)
        (out : option stream) (cols : Z) :
  returns (fmt_variant variant when max_name_default_len indent out cols) ->
  exists sorted_values,
    sorted values_key_lt (values_list variant) = inr sorted_values
    /\ (when = Spec_empty ->
        output (fmt_variant variant when max_name_default_len indent out cols)
        = (normalization_events variant
           ++ [Cprint (stream_of out)
                      (values_line colorize clen wrap variant sorted_values
                                   max_name_default_len indent cols);
               Write (stream_of out)
                     (description_text wrap variant (cols - 2) (indent * 3));
               Write (stream_of out) Py.newline])%list)
    /\ (when <> Spec_empty ->
        output (fmt_variant variant when max_name_default_len indent out cols)
        = (normalization_events variant
           ++ [Cprint (stream_of out)
                      (values_line colorize clen wrap variant sorted_values
                                   max_name_default_len indent cols);
               Cprint (stream_of out)
                      (Py.repeat (indent * 2) " " ++ "@B{when} "
                       ++ cescape (spec_str when));
               Write (stream_of out)
                     (description_text wrap variant (cols - 2) (indent * 3));
               Write (stream_of out) Py.newline])%list).
Proof.
  intros H. apply returns_unit in H. revert H.
  rewrite fmt_variant_run.
  destruct (sorted values_key_lt (values_list variant)) as [e | sv];
    [discriminate |].
  destruct (cols - 2 <=? 0); [discriminate |].
  intros _. exists sv. split; [reflexivity |].
  unfold output, block_events, when_text. simpl fst.
  split; intros Hw; destruct (Spec_eq_dec when Spec_empty);
    try reflexivity; contradiction.
Qed.

(** C8. In a report that returns, what is written for each name of the
    mapping starts with the dump of its condition-to-definitions mapping.
    When the name has more than one condition the dump is followed by
    the count line, five spaces, the number of conditions and the word
    "variants", before the marker and the blocks; with one condition the
    block follows the dump. These lines are part of the report. *)
Theorem print_variants_debug_dump
        (pkg : Package) (cols : Z) (name : string)
        (when_variants : when_variants_t) :
  variants pkg <> [] ->
  returns (report pkg cols) ->
  In (name, when_variants) (variants_by_name pkg) ->
  exists m rest pre post,
    output (report pkg cols) = (pre ++ (PPrint when_variants :: rest) ++ post)%list
    /\ PPrint when_variants :: rest = output (body name when_variants m 4 cols)
    /\ In (PPrint when_variants) (output (report pkg cols))
    /\ ((2 <= List.length when_variants)%nat ->
        (exists marker,
            rest = (Print ("     "
                           ++ Py.str_int (Z.of_nat (List.length when_variants))
                           ++ " variants")
                    :: Cprint sys_stdout marker
                    :: flat_map (fun '(when, variants) =>
                                   flat_map (fun variant =>
                                     output (fmt_variant variant when m 4
                                                         (Some sys_stdout) cols))
                                     variants)
                                when_variants)
            /\ (marker = "@g{-->} @g{" ++ name ++ "} (same)"
                \/ marker = "@r{-->} @r{" ++ name ++ "} (different)"))
        /\ In (Print ("     "
                      ++ Py.str_int (Z.of_nat (List.length when_variants))
                      ++ " variants"))
              (output (report pkg cols)))
    /\ (List.length when_variants = 1%nat ->
        exists when first others,
          when_variants = [(when, first :: others)]
          /\ rest = output (fmt_variant first when m 4 (Some sys_stdout) cols)).
Proof.
  intros Hne Hret Hin.
  destruct (print_variants_segment pkg cols name when_variants Hne Hret Hin)
    as [m [pre [post [_ [Hbody Hout]]]]].
  assert (Hhead : exists rest,
             output (body name when_variants m 4 cols)
             = PPrint when_variants :: rest).
  { unfold print_variants_body. rewrite output_bind. simpl. eauto. }
  destruct Hhead as [rest Hrest].
  exists m, rest, pre, post.
  assert (Hwhole : output (report pkg cols)
                   = (pre ++ (PPrint when_variants :: rest) ++ post)%list)
    by (now rewrite Hout, Hrest).
  split; [exact Hwhole |]. split; [now rewrite Hrest |]. split; [| split].
  - rewrite Hwhole. apply in_or_app. right. now left.
  - intros Hlen.
    rewrite (body_several_conditions _ _ _ _ _ Hlen Hbody) in Hrest.
    unfold rendered_pairs, count_line in Hrest. simpl Py.join in Hrest.
    simpl app in Hrest. injection Hrest as <-.
    split.
    + exists (marker_of name when_variants). split; [reflexivity |].
      unfold marker_of, same_marker, different_marker.
      destruct (all_equal_first (all_variants_of when_variants));
        [now left | now right].
    + rewrite Hwhole. apply in_or_app. right. right.
      apply in_or_app. left. now left.
  - intros Hlen.
    destruct when_variants as [| [when vs] [| p l]]; try discriminate.
    destruct vs as [| first others].
    + exfalso. apply returns_unit in Hbody. revert Hbody.
      unfold print_variants_body. simpl. discriminate.
    + exists when, first, others. split; [reflexivity |].
      rewrite body_one_condition in Hrest. simpl in Hrest.
      now injection Hrest as <-.
Qed.


(** C5. A variant whose [values] is neither a tuple, a list nor a
    [DisjointSetsOfValues] is rendered from the one-element list of that
    value and, on a terminal more than two columns wide, without
    raising; but the block is preceded by the line
    [print(type(values), values)] writes. *)
Theorem fmt_variant_scalar_values
        (variant : Variant) (x : pyval) (when : Spec)
        (max_name_default_len indent : Z) (out : option stream) (cols : Z) :
  values variant = ValuesOther x ->
  2 < cols ->
  fmt_variant variant when max_name_default_len indent out cols
  = (PrintTypeAndValues [x]
       :: block_events colorize clen cescape wrap variant when [x]
                       max_name_default_len indent (stream_of out) cols,
     inr tt).
Proof.
  intros Hv Hc. rewrite fmt_variant_run.
  unfold values_list, normalization_events. rewrite Hv.
  rewrite sorted_singleton.
  destruct (Z.leb_spec (cols - 2) 0); [lia | reflexivity].
Qed.

End VariantReport.

(* ------------------------------------------------------------------ *)
(** ** The default of a variant *)

(** C2, as stated, fails: the block of a variant whose default is [True]
    shows [true], and [_fmt_value] yields neither "on" nor "off" for a
    bool. *)
Lemma fmt_name_and_default_bool_counterexample :
  _fmt_name_and_default Sample.colorize Sample.shared_on
  = "@c{shared} @C{[true]}"
  /\ _fmt_value (PBool true) <> "on"
  /\ _fmt_value (PBool false) <> "off".
Proof.
  split; [reflexivity | split; discriminate].
Qed.

(** C2, amended. The block [_fmt_name_and_default] makes shows what
    [_fmt_value] makes of the default: "true" or "false" for a bool,
    "none" for [None], and the [str] of any other value. The tokens "on"
    and "off" come from [VariantFormatter.default] alone, which returns any
    other default as it is. *)
Theorem fmt_name_and_default_rendering
        (colorize : string -> string) (variant : Variant) :
  _fmt_name_and_default colorize variant
  = colorize ("@c{" ++ name variant ++ "} @C{["
              ++ match default variant with
                 | PBool true => "true"
                 | PBool false => "false"
                 | PNone => "none"
                 | PInt n => Py.str_int n
                 | PStr s => s
                 end
              ++ "]}")
  /\ VariantFormatter.default variant
     = match default variant with
       | PBool true => PStr "on"
       | PBool false => PStr "off"
       | other => other
       end.
Proof.
  unfold _fmt_name_and_default, VariantFormatter.default.
  destruct (default variant) as [| [|] | n | s]; split; reflexivity.
Qed.

(* ------------------------------------------------------------------ *)
(** ** The order of the names *)

(** C3. On a mapping that yields [zlib] before [bzip2], the report holds
    the block of [zlib] before the block of [bzip2], although "bzip2"
    comes first in lexicographic order. *)
Theorem print_variants_keeps_mapping_order
        (colorize : string -> string) (clen : string -> Z)
        (cescape : string -> string)
        (wrap : string -> Z -> string -> string -> list string) :
  let m := Z.max (clen (_fmt_name_and_default colorize Sample.zlib))
                 (clen (_fmt_name_and_default colorize Sample.bzip2)) in
  String.ltb "bzip2" "zlib" = true
  /\ print_variants colorize clen cescape wrap Sample.pkg_unsorted 80
     = ([Cprint sys_stdout ""; Cprint sys_stdout (section_title "Variants:")]
        ++ PPrint [(Spec_empty, [Sample.zlib])]
           :: block_events colorize clen cescape wrap Sample.zlib Spec_empty
                           [PBool false; PBool true] m 4 sys_stdout 80
        ++ PPrint [(Spec_empty, [Sample.bzip2])]
           :: block_events colorize clen cescape wrap Sample.bzip2 Spec_empty
                           [PBool false; PBool true] m 4 sys_stdout 80,
        inr tt)%list.
Proof.
  split; reflexivity.
Qed.

(* ------------------------------------------------------------------ *)
(** ** The column widths of [VariantFormatter] *)

(** C4, as stated, fails. Constructing the formatter for a terminal of 40
    columns raises before any width is computed; and on an object whose
    content widths are 10, 10, 10 and 100 the description width comes out
    as 36, where the claim has 70 - (10 + 10 + 10) - 14 = 26. *)
Lemma column_widths_counterexample :
  VariantFormatter.new Sample.pkg_empty 40 = inl (AttributeError "column_widths")
  /\ (exists s,
         VariantFormatter.__init__
           (Sample.with_column_widths (10, 10, 10, 100)) Sample.pkg_empty 40
         = inr s
         /\ VariantFormatter.column_widths s = Some (10, 10, 10, 36))
  /\ 36 <> 70 - (10 + 10 + 10) - 14.
Proof.
  split; [reflexivity | split; [| discriminate]].
  eexists. split; reflexivity.
Qed.

(** C4, amended. When [self.column_widths] holds the content widths
    [(w0, w1, w2, w3)], the constructor stores the first three capped at
    30, 30 and 20, and as description width the smaller of [w3] and
    [max(cols, 70)] less the name and allowed-values widths and the margin
    of 14; the [when] width is not subtracted. A terminal of at most 70
    columns counts as 70. *)
Theorem column_widths_computed
        (s : VariantFormatter.self) (pkg : Package) (cols w0 w1 w2 w3 : Z) :
  VariantFormatter.column_widths s = Some (w0, w1, w2, w3) ->
  exists s',
    VariantFormatter.__init__ s pkg cols = inr s'
    /\ VariantFormatter.column_widths s'
       = Some (Z.min w0 30, Z.min w1 30, Z.min w2 20,
               Z.min w3 (Z.max cols 70 - Z.min w0 30 - Z.min w2 20 - 14))
    /\ (cols <= 70 ->
        VariantFormatter.column_widths s'
        = Some (Z.min w0 30, Z.min w1 30, Z.min w2 20,
                Z.min w3 (70 - Z.min w0 30 - Z.min w2 20 - 14))).
Proof.
  intros Hw. unfold VariantFormatter.__init__, VariantFormatter.get_column_widths.
  simpl. rewrite Hw. eexists. split; [reflexivity |]. simpl.
  split; [reflexivity |].
  intros Hc. now rewrite (Z.max_r cols 70 Hc).
Qed.

Lemma column_widths_computed_witness :
  VariantFormatter.column_widths (Sample.with_column_widths (40, 12, 25, 100))
  = Some (40, 12, 25, 100)
  /\ exists s',
      VariantFormatter.__init__
        (Sample.with_column_widths (40, 12, 25, 100)) Sample.pkg_empty 40
      = inr s'
      /\ VariantFormatter.column_widths s'
         = Some (Z.min 40 30, Z.min 12 30, Z.min 25 20,
                 Z.min 100 (Z.max 40 70 - Z.min 40 30 - Z.min 25 20 - 14))
      /\ (40 <= 70 ->
          VariantFormatter.column_widths s'
          = Some (Z.min 40 30, Z.min 12 30, Z.min 25 20,
                  Z.min 100 (70 - Z.min 40 30 - Z.min 25 20 - 14))).
Proof.
  split; [reflexivity |].
  apply (@column_widths_computed
           (Sample.with_column_widths (40, 12, 25, 100)) Sample.pkg_empty
           40 40 12 25 100).
  reflexivity.
Defined.

(* ------------------------------------------------------------------ *)
(** ** Empty fields *)

(** C6, as stated, fails: for a package without maintainers and without
    phases, [print_maintainers] and [print_phases] write nothing at all,
    so no "None" is rendered for these sections. *)
Lemma print_maintainers_empty_counterexample :
  print_maintainers Sample.pkg_empty = ([], inr tt)
  /\ print_phases Sample.pkg_empty = ([], inr tt).
Proof.
  split; reflexivity.
Qed.

(** C6, amended. With its field empty or absent no formatter raises.
    [print_variants] and [print_versions] render "None" for an empty
    field and [print_tags] for an absent one; [print_maintainers] and
    [print_phases] write nothing, and [print_tags] hands an empty list of
    tags to [colify]. *)
Theorem empty_fields_rendering
        (colorize : string -> string) (clen : string -> Z)
        (cescape : string -> string)
        (wrap : string -> Z -> string -> string -> list string)
        (VERSION_COLOR : string) (Version_lt : Version -> Version -> bool)
        (preferred_version : Package -> Version)
        (for_package_version : Package -> Version -> string)
        (pkg : Package) (cols : Z) :
  (maintainers pkg = [] -> print_maintainers pkg = ([], inr tt))
  /\ (builder_phases pkg = None \/ builder_phases pkg = Some [] ->
      print_phases pkg = ([], inr tt))
  /\ (tags pkg = None ->
      print_tags pkg
      = ([Cprint sys_stdout ""; Cprint sys_stdout "@*bTags: @.";
          Cprint sys_stdout "    None"], inr tt))
  /\ (tags pkg = Some [] ->
      print_tags pkg
      = ([Cprint sys_stdout ""; Cprint sys_stdout "@*bTags: @.";
          Colify [] 4], inr tt))
  /\ (variants pkg = [] ->
      print_variants colorize clen cescape wrap pkg cols
      = ([Print "    None"], inr tt))
  /\ (versions pkg = [] ->
      print_versions cescape VERSION_COLOR Version_lt preferred_version
                     for_package_version pkg
      = ([Cprint sys_stdout "";
          Cprint sys_stdout "@*bPreferred version:  @.";
          Cprint sys_stdout (VERSION_COLOR ++ "    None" ++ "@.");
          Cprint sys_stdout "";
          Cprint sys_stdout "@*bSafe versions:  @.";
          Cprint sys_stdout (VERSION_COLOR ++ "    None" ++ "@.");
          Cprint sys_stdout "";
          Cprint sys_stdout "@*bDeprecated versions:  @.";
          Cprint sys_stdout (VERSION_COLOR ++ "    None" ++ "@.")], inr tt)).
Proof.
  repeat split.
  - intros H. unfold print_maintainers. now rewrite H.
  - intros [H | H]; unfold print_phases; now rewrite H.
  - intros H. unfold print_tags. now rewrite H.
  - intros H. unfold print_tags. now rewrite H.
  - intros H. unfold print_variants. now rewrite H.
  - intros H. unfold print_versions. now rewrite H.
Qed.

Lemma empty_fields_rendering_witness :
  maintainers Sample.pkg_empty = []
  /\ builder_phases Sample.pkg_empty = None
  /\ tags Sample.pkg_empty = None
  /\ variants Sample.pkg_empty = []
  /\ versions Sample.pkg_empty = []
  /\ print_maintainers Sample.pkg_empty = ([], inr tt)
  /\ print_phases Sample.pkg_empty = ([], inr tt)
  /\ print_tags Sample.pkg_empty
     = ([Cprint sys_stdout ""; Cprint sys_stdout "@*bTags: @.";
         Cprint sys_stdout "    None"], inr tt)
  /\ print_variants Sample.colorize Sample.clen Sample.cescape Sample.wrap
                    Sample.pkg_empty 80
     = ([Print "    None"], inr tt)
  /\ print_versions Sample.cescape "@c" (fun _ _ => false)
                    (fun _ => {| version_str := "" |}) (fun _ _ => "")
                    Sample.pkg_empty
     = ([Cprint sys_stdout "";
         Cprint sys_stdout "@*bPreferred version:  @.";
         Cprint sys_stdout ("@c" ++ "    None" ++ "@.");
         Cprint sys_stdout "";
         Cprint sys_stdout "@*bSafe versions:  @.";
         Cprint sys_stdout ("@c" ++ "    None" ++ "@.");
         Cprint sys_stdout "";
         Cprint sys_stdout "@*bDeprecated versions:  @.";
         Cprint sys_stdout ("@c" ++ "    None" ++ "@.")], inr tt).
Proof.
  destruct (empty_fields_rendering
              Sample.colorize Sample.clen Sample.cescape Sample.wrap
              "@c" (fun _ _ => false) (fun _ => {| version_str := "" |})
              (fun _ _ => "") Sample.pkg_empty 80)
    as [Hm [Hp [Ht [_ [Hv Hvs]]]]].
  do 5 (split; [reflexivity |]).
  split; [exact (Hm eq_refl) |].
  split; [exact (Hp (or_introl eq_refl)) |].
  split; [exact (Ht eq_refl) |].
  split; [exact (Hv eq_refl) | exact (Hvs eq_refl)].
Defined.

(* ------------------------------------------------------------------ *)
(** ** The exceptions of the variant report *)

Lemma values_key_lt_raises (a b : pyval) (e : exn) :
  values_key_lt a b = inl e -> e = TypeError.
Proof.
  unfold values_key_lt, py_lt.
  destruct (Bool.eqb _ _); [| discriminate].
  destruct (py_eq a b); [discriminate |].
  destruct a, b; simpl; congruence.
Qed.

Lemma insert_sorted_raises {A} (lt : A -> A -> exn + bool) (P : exn -> Prop) :
  (forall a b e, lt a b = inl e -> P e) ->
  forall x l e, insert_sorted lt x l = inl e -> P e.
Proof.
  intros Hlt x l. induction l as [| y l IH]; simpl; intros e; [discriminate |].
  destruct (lt x y) as [e' | [|]] eqn:E.
  - intros [= <-]. eauto.
  - discriminate.
  - destruct (insert_sorted lt x l) as [e' |]; [| discriminate].
    intros [= <-]. now apply IH.
Qed.

Lemma sorted_raises {A} (lt : A -> A -> exn + bool) (P : exn -> Prop) :
  (forall a b e, lt a b = inl e -> P e) ->
  forall l e, sorted lt l = inl e -> P e.
Proof.
  intros Hlt l. unfold sorted.
  assert (G : forall acc : exn + list A,
             (forall e, acc = inl e -> P e) ->
             forall e,
               fold_left
                 (fun acc x => match acc with
                               | inl e => inl e
                               | inr s => insert_sorted lt x s
                               end) l acc = inl e -> P e).
  { induction l as [| x l IH]; simpl; intros acc Hacc e; [apply Hacc |].
    apply IH. intros e'. destruct acc as [e0 | s].
    - apply Hacc.
    - now apply insert_sorted_raises. }
  apply G. discriminate.
Qed.

Lemma snd_emit (ev : event) : snd (emit ev) = inr tt.
Proof. reflexivity. Qed.

(** A loop raises only what one of its iterations raises. *)
Lemma for_each_raises {A} (body : A -> IO unit) (P : exn -> Prop) (xs : list A) :
  (forall x e, In x xs -> snd (body x) = inl e -> P e) ->
  forall e, snd (for_each xs body) = inl e -> P e.
Proof.
  induction xs as [| x xs IH]; simpl; intros H e; [discriminate |].
  rewrite snd_bind. destruct (snd (body x)) as [e' | []] eqn:E.
  - intros [= <-]. apply (H x); [now left | exact E].
  - apply IH. intros y e' Hy. apply H. now right.
Qed.

Section ReportExceptions.

Variable colorize : string -> string.
Variable clen : string -> Z.
Variable cescape : string -> string.
Variable wrap : string -> Z -> string -> string -> list string.

Lemma fmt_variant_raises (v : Variant) (when : Spec) (m indent : Z)
      (out : option stream) (cols : Z) (e : exn) :
  snd (_fmt_variant colorize clen cescape wrap v when m indent out cols) = inl e ->
  report_exception e.
Proof.
  rewrite fmt_variant_run. unfold report_exception.
  destruct (sorted values_key_lt (values_list v)) as [e' | sv] eqn:E; simpl.
  - intros [= <-]. left.
    exact (sorted_raises values_key_lt (fun e => e = TypeError)
                         values_key_lt_raises _ E).
  - destruct (cols - 2 <=? 0); simpl; [| discriminate].
    intros [= <-]. right. now left.
Qed.

Lemma print_variants_body_raises (name : string) (wv : when_variants_t)
      (m indent cols : Z) (e : exn) :
  snd (print_variants_body colorize clen cescape wrap name wv m indent cols) = inl e ->
  report_exception e.
Proof.
  unfold print_variants_body. rewrite snd_bind, snd_emit. cbv beta iota.
  destruct (1 <? Z.of_nat (List.length wv)).
  - rewrite snd_bind, snd_emit. cbv beta iota. rewrite snd_bind.
    destruct (negb (all_equal_first (all_variants_of wv)));
      (unfold cprint; rewrite snd_emit; cbv beta iota;
       apply for_each_raises; intros [when vs] e' _;
       apply for_each_raises; intros v e'' _; apply fmt_variant_raises).
  - destruct wv as [| [when [| first rest]] l]; simpl.
    + intros [= <-]. unfold report_exception. tauto.
    + intros [= <-]. unfold report_exception. tauto.
    + apply fmt_variant_raises.
Qed.

Lemma print_variants_raises (pkg : Package) (cols : Z) (e : exn) :
  snd (print_variants colorize clen cescape wrap pkg cols) = inl e ->
  report_exception e.
Proof.
  unfold print_variants. destruct (variants pkg); [discriminate |].
  unfold cprint. rewrite snd_bind, snd_emit. cbv beta iota.
  rewrite snd_bind, snd_emit. cbv beta iota.
  rewrite snd_bind. unfold py_max, lift.
  destruct (Py.max_of _) as [m |]; simpl snd; cbv beta iota.
  - apply for_each_raises. intros [n wv] e' _. apply print_variants_body_raises.
  - intros [= <-]. unfold report_exception. tauto.
Qed.

End ReportExceptions.

(** C9. Evaluating [VariantFormatter(pkg)] raises an AttributeError for
    every package and terminal width: [__init__] reads
    [self.column_widths] on an object that has no such attribute yet.
    [print_variants] does not construct the formatter: it never raises an
    AttributeError, and it returns on a package with variants. *)
Theorem VariantFormatter_cannot_be_constructed :
  (forall (pkg : Package) (cols : Z),
      VariantFormatter.new pkg cols = inl (AttributeError "column_widths"))
  /\ (forall colorize clen cescape wrap (pkg : Package) (cols : Z) (attr : string),
         snd (print_variants colorize clen cescape wrap pkg cols)
         <> inl (AttributeError attr))
  /\ (forall colorize clen cescape wrap,
         returns (print_variants colorize clen cescape wrap
                                 Sample.pkg_two_conditions 80)).
Proof.
  split; [reflexivity | split].
  - intros colorize clen cescape wrap pkg cols attr H.
    destruct (print_variants_raises _ _ _ _ _ _ H) as [E | [E | [E | E]]];
      discriminate.
  - intros. now exists tt.
Qed.

(* ------------------------------------------------------------------ *)
(** ** The theorems at concrete inputs *)


Lemma fmt_variant_when_line_witness :
  returns (_fmt_variant Sample.colorize Sample.clen Sample.cescape Sample.wrap
                        Sample.shared_on Sample.with_mpi 20 4 None 80)
  /\ exists sorted_values,
      sorted values_key_lt (values_list Sample.shared_on) = inr sorted_values
      /\ (Sample.with_mpi = Spec_empty ->
          output (_fmt_variant Sample.colorize Sample.clen Sample.cescape Sample.wrap
                               Sample.shared_on Sample.with_mpi 20 4 None 80)
          = (normalization_events Sample.shared_on
             ++ [Cprint (stream_of None)
                        (values_line Sample.colorize Sample.clen Sample.wrap
                                     Sample.shared_on sorted_values 20 4 80);
                 Write (stream_of None)
                       (description_text Sample.wrap Sample.shared_on (80 - 2) (4 * 3));
                 Write (stream_of None) Py.newline])%list)
      /\ (Sample.with_mpi <> Spec_empty ->
          output (_fmt_variant Sample.colorize Sample.clen Sample.cescape Sample.wrap
                               Sample.shared_on Sample.with_mpi 20 4 None 80)
          = (normalization_events Sample.shared_on
             ++ [Cprint (stream_of None)
                        (values_line Sample.colorize Sample.clen Sample.wrap
                                     Sample.shared_on sorted_values 20 4 80);
                 Cprint (stream_of None)
                        (Py.repeat (4 * 2) " " ++ "@B{when} "
                         ++ Sample.cescape (spec_str Sample.with_mpi));
                 Write (stream_of None)
                       (description_text Sample.wrap Sample.shared_on (80 - 2) (4 * 3));
                 Write (stream_of None) Py.newline])%list).
Proof.
  assert (H : returns (_fmt_variant Sample.colorize Sample.clen Sample.cescape
                                    Sample.wrap Sample.shared_on Sample.with_mpi
                                    20 4 None 80))
    by (exists tt; reflexivity).
  split; [exact H |].
  exact (@fmt_variant_when_line
           Sample.colorize Sample.clen Sample.cescape Sample.wrap
           Sample.shared_on Sample.with_mpi 20 4 None 80 H).
Defined.

Lemma print_variants_debug_dump_witness :
  variants Sample.pkg_two_conditions <> []
  /\ returns (print_variants Sample.colorize Sample.clen Sample.cescape Sample.wrap
                             Sample.pkg_two_conditions 80)
  /\ In ("shared", Sample.two_conditions) (variants_by_name Sample.pkg_two_conditions)
  /\ (2 <= List.length Sample.two_conditions)%nat
  /\ exists m rest pre post,
      output (print_variants Sample.colorize Sample.clen Sample.cescape Sample.wrap
                             Sample.pkg_two_conditions 80)
      = (pre ++ (PPrint Sample.two_conditions :: rest) ++ post)%list
      /\ PPrint Sample.two_conditions :: rest
         = output (print_variants_body Sample.colorize Sample.clen Sample.cescape
                                       Sample.wrap "shared"
                                       Sample.two_conditions m 4 80)
      /\ In (PPrint Sample.two_conditions)
            (output (print_variants Sample.colorize Sample.clen Sample.cescape
                                    Sample.wrap Sample.pkg_two_conditions 80))
      /\ (exists marker,
             rest = (Print "     2 variants"
                     :: Cprint sys_stdout marker
                     :: flat_map (fun '(when, variants) =>
                                    flat_map (fun variant =>
                                      output (_fmt_variant
                                                Sample.colorize Sample.clen
                                                Sample.cescape Sample.wrap
                                                variant when m 4
                                                (Some sys_stdout) 80))
                                      variants)
                                 Sample.two_conditions)
             /\ (marker = "@g{-->} @g{shared} (same)"
                 \/ marker = "@r{-->} @r{shared} (different)"))
      /\ In (Print "     2 variants")
            (output (print_variants Sample.colorize Sample.clen Sample.cescape
                                    Sample.wrap Sample.pkg_two_conditions 80)).
Proof.
  assert (H1 : variants Sample.pkg_two_conditions <> []) by discriminate.
  assert (H2 : returns (print_variants Sample.colorize Sample.clen Sample.cescape
                                       Sample.wrap Sample.pkg_two_conditions 80))
    by (exists tt; reflexivity).
  assert (H3 : In ("shared", Sample.two_conditions)
                  (variants_by_name Sample.pkg_two_conditions))
    by (left; reflexivity).
  assert (H4 : (2 <= List.length Sample.two_conditions)%nat) by (simpl; lia).
  split; [exact H1 |]. split; [exact H2 |]. split; [exact H3 |].
  split; [exact H4 |].
  destruct (@print_variants_debug_dump
              Sample.colorize Sample.clen Sample.cescape Sample.wrap
              Sample.pkg_two_conditions 80 "shared" Sample.two_conditions
              H1 H2 H3)
    as [m [rest [pre [post [Hout [Hbody [Hdump [Hcount _]]]]]]]].
  destruct (Hcount H4) as [Hrest Hline].
  exists m, rest, pre, post.
  split; [exact Hout |]. split; [exact Hbody |]. split; [exact Hdump |].
  split; [exact Hrest | exact Hline].
Defined.


Lemma fmt_variant_scalar_values_witness :
  values Sample.fabrics = ValuesOther PNone
  /\ 2 < 80
  /\ _fmt_variant Sample.colorize Sample.clen Sample.cescape Sample.wrap
                  Sample.fabrics Spec_empty 20 4 None 80
     = (PrintTypeAndValues [PNone]
          :: block_events Sample.colorize Sample.clen Sample.cescape Sample.wrap
                          Sample.fabrics Spec_empty [PNone] 20 4 (stream_of None) 80,
        inr tt).
Proof.
  assert (H1 : values Sample.fabrics = ValuesOther PNone) by reflexivity.
  assert (H2 : 2 < 80) by lia.
  split; [exact H1 |]. split; [exact H2 |].
  exact (@fmt_variant_scalar_values
           Sample.colorize Sample.clen Sample.cescape Sample.wrap
           Sample.fabrics PNone Spec_empty 20 4 None 80 H1 H2).
Defined.

(* ------------------------------------------------------------------ *)
(** ** Sorting *)

Lemma sort_step_raised {A} (lt : A -> A -> exn + bool) (l : list A) (e : exn) :
  fold_left
    (fun acc x => match acc with inl e => inl e | inr s => insert_sorted lt x s end)
    l (inl e) = inl e.
Proof.
  induction l as [| x l IH]; simpl; [reflexivity | exact IH].
Qed.

Lemma insert_sorted_permutation {A} (lt : A -> A -> exn + bool) (x : A)
      (l r : list A) :
  insert_sorted lt x l = inr r -> Permutation (x :: l) r.
Proof.
  revert r. induction l as [| y l IH]; simpl; intros r.
  - intros [= <-]. apply Permutation_refl.
  - destruct (lt x y) as [e | [|]]; [discriminate | |].
    + intros [= <-]. apply Permutation_refl.
    + destruct (insert_sorted lt x l) as [e | r']; [discriminate |].
      intros [= <-]. eapply perm_trans; [apply perm_swap |].
      apply perm_skip. now apply IH.
Qed.

Lemma sort_fold_permutation {A} (lt : A -> A -> exn + bool) (l s r : list A) :
  fold_left
    (fun acc x => match acc with inl e => inl e | inr s => insert_sorted lt x s end)
    l (inr s) = inr r ->
  Permutation (s ++ l) r.
Proof.
  revert s. induction l as [| x l IH]; simpl; intros s.
  - intros [= <-]. rewrite app_nil_r. apply Permutation_refl.
  - destruct (insert_sorted lt x s) as [e | s'] eqn:E.
    + rewrite sort_step_raised. discriminate.
    + intros H. apply IH in H.
      eapply perm_trans; [| exact H].
      eapply perm_trans; [apply Permutation_sym, Permutation_middle |].
      change (Permutation ((x :: s) ++ l) (s' ++ l)).
      apply Permutation_app_tail. exact (insert_sorted_permutation lt x s E).
Qed.

(** What [sorted] returns holds the elements of its argument, each as
    often as the argument does. *)
Lemma sorted_permutation {A} (lt : A -> A -> exn + bool) (l r : list A) :
  sorted lt l = inr r -> Permutation l r.
Proof.
  intros H. exact (@sort_fold_permutation A lt l [] r H).
Qed.

(** A comparison that never raises. *)
Lemma insert_sorted_total {A} (lt : A -> A -> exn + bool) (x : A) (l : list A) :
  (forall a b, exists c, lt a b = inr c) ->
  exists r, insert_sorted lt x l = inr r.
Proof.
  intros Hlt. induction l as [| y l [r IH]]; simpl; [eauto |].
  destruct (Hlt x y) as [c ->]. destruct c; [eauto |]. rewrite IH. eauto.
Qed.

Lemma sorted_total {A} (lt : A -> A -> exn + bool) (l : list A) :
  (forall a b, exists c, lt a b = inr c) ->
  exists r, sorted lt l = inr r.
Proof.
  intros Hlt. unfold sorted. generalize (@nil A) as s.
  induction l as [| x l IH]; simpl; intros s; [eauto |].
  destruct (@insert_sorted_total A lt x s Hlt) as [s' ->]. apply IH.
Qed.

Lemma insert_sorted_Sorted {A} (lt : A -> A -> bool) (x : A) (l r : list A) :
  (forall a b, lt a b = true -> lt b a = false) ->
  Sorted (fun a b => lt b a = false) l ->
  insert_sorted (fun a b => inr (lt a b)) x l = inr r ->
  Sorted (fun a b => lt b a = false) r.
Proof.
  intros Hasym. revert r. induction l as [| y l IH]; simpl; intros r Hs.
  - intros [= <-]. repeat constructor.
  - destruct (lt x y) eqn:E.
    + intros [= <-]. constructor; [exact Hs |]. constructor. now apply Hasym.
    + destruct (insert_sorted (fun a b => inr (lt a b)) x l) as [e | r'] eqn:E';
        [discriminate |].
      intros [= <-]. apply Sorted_inv in Hs. destruct Hs as [Hs Hhd].
      constructor; [now apply IH |].
      destruct l as [| z l]; simpl in E'.
      * injection E' as <-. now constructor.
      * destruct (lt x z).
        -- injection E' as <-. now constructor.
        -- destruct (insert_sorted (fun a b => inr (lt a b)) x l);
             [discriminate |].
           injection E' as <-. constructor. now inversion Hhd.
Qed.

Lemma sorted_Sorted {A} (lt : A -> A -> bool) (l r : list A) :
  (forall a b, lt a b = true -> lt b a = false) ->
  sorted (fun a b => inr (lt a b)) l = inr r ->
  Sorted (fun a b => lt b a = false) r.
Proof.
  intros Hasym. unfold sorted.
  assert (G : forall s, Sorted (fun a b => lt b a = false) s ->
                        fold_left
                          (fun acc x => match acc with
                                        | inl e => inl e
                                        | inr s => insert_sorted
                                                     (fun a b => inr (lt a b)) x s
                                        end) l (inr s) = inr r ->
                        Sorted (fun a b => lt b a = false) r).
  { revert r. induction l as [| x l IH]; simpl; intros r s Hs.
    - now intros [= <-].
    - destruct (insert_sorted (fun a b => inr (lt a b)) x s) as [e | s'] eqn:E.
      + rewrite sort_step_raised. discriminate.
      + apply IH. eapply insert_sorted_Sorted; eauto. }
  apply G. constructor.
Qed.

Lemma string_ltb_asym (a b : string) :
  String.ltb a b = true -> String.ltb b a = false.
Proof.
  unfold String.ltb. rewrite (String.compare_antisym b a).
  destruct (String.compare a b); simpl; congruence.
Qed.

Lemma string_ltb_leb (a b : string) :
  String.ltb b a = false <-> String.leb a b = true.
Proof.
  unfold String.ltb, String.leb. rewrite (String.compare_antisym b a).
  destruct (String.compare a b); simpl; split; congruence.
Qed.

(** Sorting names never raises, and in the result every name is at most
    the name after it. *)
Lemma sorted_names_ordered (names : list string) :
  exists r,
    sorted str_lt names = inr r
    /\ Permutation names r
    /\ Sorted (fun a b => String.leb a b = true) r.
Proof.
  destruct (@sorted_total string str_lt names) as [r Hr];
    [intros a b; unfold str_lt; eauto |].
  exists r. split; [exact Hr |]. split.
  - exact (@sorted_permutation string str_lt names r Hr).
  - assert (H := @sorted_Sorted string String.ltb names r string_ltb_asym Hr).
    clear Hr. induction H as [| a l Hs IH Hhd]; constructor; [exact IH |].
    destruct Hhd; constructor. now apply string_ltb_leb.
Qed.

(* ------------------------------------------------------------------ *)
(** ** Sorting the values of a variant *)

Lemma is_none_token_spec (v : pyval) :
  is_none_token v = true <-> v = PStr "none".
Proof.
  unfold is_none_token. destruct v as [| b | n | s]; simpl;
    try (split; discriminate).
  rewrite String.eqb_eq. split; [now intros -> | now intros [= ->]].
Qed.

Lemma kind_eqb_eq (a b : kind) : kind_eqb a b = true <-> a = b.
Proof.
  destruct a, b; simpl; split; congruence.
Qed.

Lemma key_lt_none_none : values_key_lt (PStr "none") (PStr "none") = inr false.
Proof. reflexivity. Qed.

Lemma key_lt_none_other (y : pyval) :
  is_none_token y = false -> values_key_lt (PStr "none") y = inr true.
Proof.
  unfold values_key_lt. fold (is_none_token y). intros ->. reflexivity.
Qed.

Lemma key_lt_other_none (x : pyval) :
  is_none_token x = false -> values_key_lt x (PStr "none") = inr false.
Proof.
  unfold values_key_lt. fold (is_none_token x). intros ->. reflexivity.
Qed.

Lemma key_lt_same_kind (x y : pyval) :
  is_none_token x = false -> is_none_token y = false ->
  kind_of x = kind_of y ->
  exists b, values_key_lt x y = inr b.
Proof.
  unfold values_key_lt. fold (is_none_token x) (is_none_token y).
  intros -> -> Hk. simpl.
  destruct (py_eq x y) eqn:E; [eauto |].
  destruct x, y; simpl in *; try discriminate; eauto.
Qed.

Lemma key_lt_other_kind (x y : pyval) :
  is_none_token x = false -> is_none_token y = false ->
  kind_of x <> kind_of y ->
  values_key_lt x y = inl TypeError.
Proof.
  unfold values_key_lt. fold (is_none_token x) (is_none_token y).
  intros -> -> Hk. simpl.
  destruct x, y; simpl in *; try reflexivity; congruence.
Qed.

Lemma insert_none_token (n : nat) (others : list pyval) :
  Forall (fun v => is_none_token v = false) others ->
  insert_sorted values_key_lt (PStr "none")
                (List.repeat (PStr "none") n ++ others)
  = inr (List.repeat (PStr "none") (S n) ++ others)%list.
Proof.
  intros Ho. induction n as [| n IH].
  - destruct others as [| y o]; [reflexivity |].
    simpl. inversion Ho; subst. now rewrite key_lt_none_other.
  - simpl List.repeat. simpl app.
    change (insert_sorted values_key_lt (PStr "none")
              (PStr "none" :: (List.repeat (PStr "none") n ++ others)))
      with (match values_key_lt (PStr "none") (PStr "none") with
            | inl e => inl e
            | inr true => inr (PStr "none" :: PStr "none"
                                 :: (List.repeat (PStr "none") n ++ others))
            | inr false =>
                match insert_sorted values_key_lt (PStr "none")
                        (List.repeat (PStr "none") n ++ others) with
                | inl e => inl e
                | inr r => inr (PStr "none" :: r)
                end
            end).
    rewrite key_lt_none_none, IH. reflexivity.
Qed.

Lemma insert_past_none_tokens (x : pyval) (n : nat) (others : list pyval) :
  is_none_token x = false ->
  insert_sorted values_key_lt x (List.repeat (PStr "none") n ++ others)
  = match insert_sorted values_key_lt x others with
    | inl e => inl e
    | inr r => inr (List.repeat (PStr "none") n ++ r)%list
    end.
Proof.
  intros Hx. induction n as [| n IH]; simpl.
  - now destruct (insert_sorted values_key_lt x others).
  - rewrite (@key_lt_other_none x Hx), IH.
    now destruct (insert_sorted values_key_lt x others).
Qed.

Lemma insert_same_kind (k : kind) (x : pyval) (others : list pyval) :
  is_none_token x = false -> kind_of x = k ->
  Forall (fun v => is_none_token v = false /\ kind_of v = k) others ->
  exists r,
    insert_sorted values_key_lt x others = inr r
    /\ Forall (fun v => is_none_token v = false /\ kind_of v = k) r.
Proof.
  intros Hx Hk Ho. induction Ho as [| y o [Hy Hky] Ho IH]; simpl.
  - eexists. split; [reflexivity |]. now repeat constructor.
  - assert (Hxy : kind_of x = kind_of y) by congruence.
    destruct (@key_lt_same_kind x y Hx Hy Hxy) as [b ->].
    destruct b.
    + eexists. split; [reflexivity |]. now repeat constructor.
    + destruct IH as [r [-> Hr]]. eexists. split; [reflexivity |].
      now constructor.
Qed.

Lemma none_first_insert (k : kind) (x : pyval) (s s' : list pyval) :
  none_first k s ->
  insert_sorted values_key_lt x s = inr s' ->
  exists k', none_first k' s'
             /\ (forall v, In v s -> is_none_token v = false -> k' = k).
Proof.
  intros [n [others [-> Ho]]].
  assert (Ho' : Forall (fun v => is_none_token v = false) others)
    by (eapply Forall_impl; [| exact Ho]; now intros v [H _]).
  destruct (is_none_token x) eqn:Hx.
  - apply is_none_token_spec in Hx. subst x.
    rewrite (@insert_none_token n others Ho'). intros [= <-].
    exists k. split; [now exists (S n), others | reflexivity].
  - rewrite (@insert_past_none_tokens x n others Hx).
    destruct others as [| y o].
    + simpl. intros [= <-]. exists (kind_of x). split.
      * exists n, [x]. split; [reflexivity |]. now repeat constructor.
      * intros v Hv Hnv. rewrite app_nil_r in Hv.
        apply repeat_spec in Hv. subst v. discriminate.
    + inversion Ho as [| y' o' [Hy Hky] Ho'']; subst.
      destruct (kind_eqb (kind_of x) (kind_of y)) eqn:E.
      * apply kind_eqb_eq in E.
        destruct (@insert_same_kind _ x _ Hx E Ho) as [r [-> Hr]].
        intros [= <-]. exists (kind_of y). split; [now exists n, r | reflexivity].
      * simpl. rewrite (@key_lt_other_kind x y Hx Hy); [discriminate |].
        intros E'. apply kind_eqb_eq in E'. congruence.
Qed.

Lemma none_first_fold (l : list pyval) :
  forall k s r,
    none_first k s ->
    fold_left
      (fun acc x => match acc with
                    | inl e => inl e
                    | inr s => insert_sorted values_key_lt x s
                    end) l (inr s) = inr r ->
    exists k', none_first k' r.
Proof.
  induction l as [| x l IH]; simpl; intros k s r Hs.
  - intros [= <-]. eauto.
  - destruct (insert_sorted values_key_lt x s) as [e | s'] eqn:E.
    + rewrite sort_step_raised. discriminate.
    + destruct (@none_first_insert k x s s' Hs E) as [k' [Hs' _]].
      now apply (IH k' s').
Qed.

Lemma one_kind_intro (k : kind) (l : list pyval) :
  (forall v, In v l -> is_none_token v = false -> kind_of v = k) ->
  one_kind l = true.
Proof.
  intros H. unfold one_kind.
  destruct (filter (fun v => negb (is_none_token v)) l) as [| v rest] eqn:E;
    [reflexivity |].
  assert (Hin : forall w, In w (v :: rest) ->
                          In w l /\ is_none_token w = false).
  { intros w Hw. rewrite <- E in Hw. apply filter_In in Hw.
    destruct Hw as [Hw Hn]. split; [exact Hw |].
    now destruct (is_none_token w). }
  apply forallb_forall. intros w Hw. apply kind_eqb_eq.
  destruct (Hin v (or_introl eq_refl)) as [Hv Hnv].
  destruct (Hin w (or_intror Hw)) as [Hw' Hnw].
  rewrite (H v Hv Hnv), (H w Hw' Hnw). reflexivity.
Qed.

Lemma one_kind_elim (l : list pyval) :
  one_kind l = true ->
  exists k, forall v, In v l -> is_none_token v = false -> kind_of v = k.
Proof.
  unfold one_kind.
  destruct (filter (fun v => negb (is_none_token v)) l) as [| v rest] eqn:E.
  - intros _. exists KNone. intros w Hw Hn.
    assert (Hf : In w (filter (fun v => negb (is_none_token v)) l))
      by (apply filter_In; split; [exact Hw | now rewrite Hn]).
    rewrite E in Hf. contradiction.
  - intros H. exists (kind_of v). intros w Hw Hn.
    assert (Hf : In w (filter (fun v => negb (is_none_token v)) l))
      by (apply filter_In; split; [exact Hw | now rewrite Hn]).
    rewrite E in Hf. destruct Hf as [<- | Hf]; [reflexivity |].
    rewrite forallb_forall in H. apply kind_eqb_eq. now apply H.
Qed.

Lemma one_kind_fold (k : kind) (l : list pyval) :
  forall s,
    none_first k s ->
    (forall v, In v l -> is_none_token v = false -> kind_of v = k) ->
    exists r,
      fold_left
        (fun acc x => match acc with
                      | inl e => inl e
                      | inr s => insert_sorted values_key_lt x s
                      end) l (inr s) = inr r.
Proof.
  induction l as [| x l IH]; simpl; intros s Hs Hl; [eauto |].
  destruct Hs as [n [others [-> Ho]]].
  assert (Ho' : Forall (fun v => is_none_token v = false) others)
    by (eapply Forall_impl; [| exact Ho]; now intros v [H _]).
  destruct (is_none_token x) eqn:Hx.
  - apply is_none_token_spec in Hx. subst x.
    rewrite (@insert_none_token n others Ho').
    apply IH; [now exists (S n), others | auto].
  - rewrite (@insert_past_none_tokens x n others Hx).
    destruct (@insert_same_kind k x others Hx (Hl x (or_introl eq_refl) Hx) Ho)
      as [r [-> Hr]].
    apply IH; [now exists n, r | auto].
Qed.

(** X1. When the values of a variant sort, the sorted values that
    [_fmt_variant] joins are a rearrangement of the values in which every
    "none" comes before every other value. *)
Theorem sorted_values_none_first (l r : list pyval) :
  sorted values_key_lt l = inr r ->
  Permutation l r
  /\ exists n others,
      r = (List.repeat (PStr "none") n ++ others)%list
      /\ Forall (fun v => v <> PStr "none") others.
Proof.
  intros H. split; [exact (@sorted_permutation pyval values_key_lt l r H) |].
  assert (H0 : none_first KNone []) by (exists 0%nat, []; split; [reflexivity | constructor]).
  destruct (@none_first_fold l KNone [] r H0 H) as [k [n [others [-> Ho]]]].
  exists n, others. split; [reflexivity |].
  eapply Forall_impl; [| exact Ho]. intros v [Hn _] E.
  apply is_none_token_spec in E. congruence.
Qed.

(** The values of a variant sort exactly when, "none" apart, they are all
    numbers, all strings or all [None]. *)
Lemma sortable_iff_one_kind (v : Variant) :
  sortable v = one_kind (values_list v).
Proof.
  unfold sortable.
  destruct (sorted values_key_lt (values_list v)) as [e | r] eqn:E.
  - destruct (one_kind (values_list v)) eqn:K; [| reflexivity].
    destruct (@one_kind_elim (values_list v) K) as [k Hk].
    assert (H0 : none_first k [])
      by (exists 0%nat, []; split; [reflexivity | constructor]).
    destruct (@one_kind_fold k (values_list v) [] H0 Hk) as [r Hr].
    unfold sorted in E. congruence.
  - symmetry.
    assert (H0 : none_first KNone [])
      by (exists 0%nat, []; split; [reflexivity | constructor]).
    destruct (@none_first_fold (values_list v) KNone [] r H0 E)
      as [k [n [others [Hr Ho]]]].
    apply (@one_kind_intro k). intros w Hw Hn.
    assert (Hin : In w r)
      by (eapply Permutation_in;
          [exact (@sorted_permutation pyval values_key_lt _ _ E) | exact Hw]).
    rewrite Hr in Hin. apply in_app_or in Hin. destruct Hin as [Hin | Hin].
    + apply repeat_spec in Hin. subst w. discriminate.
    + rewrite Forall_forall in Ho. now destruct (Ho w Hin).
Qed.

Lemma sorted_values_none_first_witness :
  sorted values_key_lt [PStr "b"; PStr "none"; PStr "a"]
  = inr [PStr "none"; PStr "a"; PStr "b"]
  /\ Permutation [PStr "b"; PStr "none"; PStr "a"]
                 [PStr "none"; PStr "a"; PStr "b"]
  /\ exists n others,
      [PStr "none"; PStr "a"; PStr "b"]
      = (List.repeat (PStr "none") n ++ others)%list
      /\ Forall (fun v => v <> PStr "none") others.
Proof.
  assert (H : sorted values_key_lt [PStr "b"; PStr "none"; PStr "a"]
              = inr [PStr "none"; PStr "a"; PStr "b"]) by reflexivity.
  split; [exact H |].
  exact (@sorted_values_none_first _ _ H).
Defined.

(* ------------------------------------------------------------------ *)
(** ** The outcome of a block *)

(** X2. What [_fmt_variant] does is decided by the values and the width
    of the terminal. Values that, "none" apart, mix numbers, strings and
    [None] raise a TypeError; otherwise a terminal of at most two columns
    raises a ValueError; in both cases no line of the block is written.
    In every other case the block is written and the call returns. *)
Theorem fmt_variant_outcome
        (colorize : string -> string) (clen : string -> Z)
        (cescape : string -> string)
        (wrap : string -> Z -> string -> string -> list string)
        (variant : Variant) (when : Spec) (max_name_default_len indent : Z)
        (out : option stream) (cols : Z) :
  (one_kind (values_list variant) = false ->
   _fmt_variant colorize clen cescape wrap variant when
                max_name_default_len indent out cols
   = (normalization_events variant, inl TypeError))
  /\ (one_kind (values_list variant) = true -> cols <= 2 ->
      _fmt_variant colorize clen cescape wrap variant when
                   max_name_default_len indent out cols
      = (normalization_events variant, inl ValueError))
  /\ (one_kind (values_list variant) = true -> 2 < cols ->
      exists sorted_values,
        sorted values_key_lt (values_list variant) = inr sorted_values
        /\ _fmt_variant colorize clen cescape wrap variant when
                        max_name_default_len indent out cols
           = ((normalization_events variant
               ++ block_events colorize clen cescape wrap variant when
                               sorted_values max_name_default_len indent
                               (stream_of out) cols)%list,
              inr tt)).
Proof.
  rewrite fmt_variant_run, <- sortable_iff_one_kind. unfold sortable.
  destruct (sorted values_key_lt (values_list variant)) as [e | sv] eqn:E.
  - split; [| split]; try discriminate.
    intros _.
    rewrite (sorted_raises values_key_lt (fun e => e = TypeError)
                           values_key_lt_raises _ E).
    reflexivity.
  - split; [discriminate | split]; intros _ Hc.
    + destruct (Z.leb_spec (cols - 2) 0); [reflexivity | lia].
    + exists sv. split; [reflexivity |].
      destruct (Z.leb_spec (cols - 2) 0); [lia | reflexivity].
Qed.

Lemma fmt_variant_outcome_witness :
  one_kind (values_list Sample.shared_on) = true
  /\ 2 < 80
  /\ exists sorted_values,
      sorted values_key_lt (values_list Sample.shared_on) = inr sorted_values
      /\ _fmt_variant Sample.colorize Sample.clen Sample.cescape Sample.wrap
                      Sample.shared_on Spec_empty 20 4 None 80
         = ((normalization_events Sample.shared_on
             ++ block_events Sample.colorize Sample.clen Sample.cescape
                             Sample.wrap Sample.shared_on Spec_empty
                             sorted_values 20 4 (stream_of None) 80)%list,
            inr tt).
Proof.
  assert (H1 : one_kind (values_list Sample.shared_on) = true) by reflexivity.
  assert (H2 : 2 < 80) by lia.
  split; [exact H1 |]. split; [exact H2 |].
  exact (proj2 (proj2 (@fmt_variant_outcome
                         Sample.colorize Sample.clen Sample.cescape Sample.wrap
                         Sample.shared_on Spec_empty 20 4 None 80)) H1 H2).
Defined.

(* ------------------------------------------------------------------ *)
(** ** The description *)

Lemma split_lines_from_not_empty (s cur : string) :
  Py.split_lines_from cur s <> [].
Proof.
  revert cur. induction s as [| c s IH]; simpl; intros cur; [discriminate |].
  destruct (Ascii.eqb c (ascii_of_nat 10)); [discriminate | apply IH].
Qed.

(** X3. [_fmt_variant_description] raises a ValueError exactly when the
    width is not positive, even for an empty description; otherwise it
    returns the lines of the description, each wrapped on its own, joined
    by newlines. *)
Theorem fmt_variant_description_outcome
        (wrap : string -> Z -> string -> string -> list string)
        (variant : Variant) (width indent : Z) :
  (width <= 0 ->
   _fmt_variant_description wrap variant width indent = inl ValueError)
  /\ (0 < width ->
      _fmt_variant_description wrap variant width indent
      = inr (Py.join Py.newline
               (map (fun line =>
                       Py.join Py.newline
                         (wrap line width (Py.repeat indent " ")
                               (Py.repeat indent " ")))
                    (Py.split_lines (description variant))))).
Proof.
  unfold _fmt_variant_description. split; intros Hw.
  - rewrite fill_lines_not_positive; [reflexivity | exact Hw |].
    apply split_lines_from_not_empty.
  - now rewrite fill_lines_positive.
Qed.

Lemma fmt_variant_description_outcome_witness :
  0 < 78
  /\ _fmt_variant_description Sample.wrap Sample.shared_on 78 12
     = inr (Py.join Py.newline
              (map (fun line =>
                      Py.join Py.newline
                        (Sample.wrap line 78 (Py.repeat 12 " ")
                                     (Py.repeat 12 " ")))
                   (Py.split_lines (description Sample.shared_on)))).
Proof.
  assert (H : 0 < 78) by lia.
  split; [exact H |].
  exact (proj2 (@fmt_variant_description_outcome
                  Sample.wrap Sample.shared_on 78 12) H).
Defined.

(* ------------------------------------------------------------------ *)
(** ** [padder] *)

Lemma len_append (a b : string) : Py.len (a ++ b) = Py.len a + Py.len b.
Proof.
  unfold Py.len. induction a as [| c a IH]; simpl String.length.
  - simpl. lia.
  - change (String.length (String c a ++ b)) with (S (String.length (a ++ b))).
    lia.
Qed.

Lemma len_repeat_space (n : Z) : 0 <= n -> Py.len (Py.repeat n " ") = n.
Proof.
  intros Hn. unfold Py.repeat, Py.len.
  assert (G : forall k, String.length (String.concat "" (List.repeat " " k)) = k).
  { induction k as [| k IH]; [reflexivity |].
    simpl List.repeat. destruct k as [| k]; [reflexivity |].
    change (String.concat "" (" " :: List.repeat " " (S k)))
      with (" " ++ "" ++ String.concat "" (List.repeat " " (S k))).
    simpl String.length. simpl in IH. now rewrite IH. }
  rewrite G. lia.
Qed.

Lemma fold_max_bounds (xs : list Z) (x0 : Z) :
  x0 <= fold_left Z.max xs x0
  /\ (forall x, In x xs -> x <= fold_left Z.max xs x0)
  /\ In (fold_left Z.max xs x0) (x0 :: xs).
Proof.
  revert x0. induction xs as [| y xs IH]; simpl; intros x0.
  - split; [lia | split; [contradiction | now left]].
  - destruct (IH (Z.max x0 y)) as [H1 [H2 H3]]. split; [lia |]. split.
    + intros x [<- | Hx]; [lia | now apply H2].
    + destruct H3 as [H3 | H3]; [| now right; right].
      rewrite <- H3. destruct (Z.max_spec x0 y) as [[_ ->] | [_ ->]];
        [right; now left | now left].
Qed.

Lemma py_max_bounds (xs : list Z) (m : Z) :
  py_max xs = inr m -> In m xs /\ forall x, In x xs -> x <= m.
Proof.
  unfold py_max, Py.max_of. destruct xs as [| x0 xs]; [discriminate |].
  intros [= <-]. destruct (fold_max_bounds xs x0) as [H1 [H2 H3]].
  split; [exact H3 |]. intros x [<- | Hx]; [exact H1 | now apply H2].
Qed.

(** X4. [padder] raises a ValueError on an empty list. On any other list
    the function it returns only appends spaces, never shortens a string,
    and brings every element of the list to one and the same length: that
    of the longest element plus [extra]. *)
Theorem padder_aligns (str_list : list string) (extra : Z) :
  (str_list = [] -> padder str_list extra = inl ValueError)
  /\ (str_list <> [] -> 0 <= extra ->
      exists pad width,
        padder str_list extra = inr pad
        /\ py_max (map Py.len str_list) = inr (width - extra)
        /\ (forall s, exists k, pad s = s ++ Py.repeat k " ")
        /\ (forall s, Py.len (pad s) = Z.max (Py.len s) width)
        /\ (forall s, In s str_list -> Py.len (pad s) = width)).
Proof.
  split; [now intros -> |].
  intros Hne He. unfold padder.
  destruct (py_max (map Py.len str_list)) as [e | m] eqn:E.
  - destruct str_list; [congruence | discriminate].
  - exists (fun string =>
              string ++ Py.repeat (Z.max 0 (m + extra - Py.len string)) " "),
           (m + extra).
    split; [reflexivity |].
    split; [f_equal; lia |].
    assert (Hlen : forall s,
               Py.len (s ++ Py.repeat (Z.max 0 (m + extra - Py.len s)) " ")
               = Z.max (Py.len s) (m + extra)).
    { intros s. rewrite len_append, len_repeat_space; lia. }
    split; [intros s; eauto |]. split; [exact Hlen |].
    intros s Hs. rewrite Hlen.
    destruct (py_max_bounds _ E) as [_ Hb].
    assert (Py.len s <= m) by (apply Hb; now apply in_map).
    lia.
Qed.

Lemma padder_aligns_witness :
  ["1.2"; "1.10.4"] <> []
  /\ 0 <= 4
  /\ exists pad width,
      padder ["1.2"; "1.10.4"] 4 = inr pad
      /\ py_max (map Py.len ["1.2"; "1.10.4"]) = inr (width - 4)
      /\ (forall s, exists k, pad s = s ++ Py.repeat k " ")
      /\ (forall s, Py.len (pad s) = Z.max (Py.len s) width)
      /\ (forall s, In s ["1.2"; "1.10.4"] -> Py.len (pad s) = width).
Proof.
  assert (H1 : ["1.2"; "1.10.4"] <> []) by discriminate.
  assert (H2 : 0 <= 4) by lia.
  split; [exact H1 |]. split; [exact H2 |].
  exact (proj2 (@padder_aligns ["1.2"; "1.10.4"] 4) H1 H2).
Defined.

(* ------------------------------------------------------------------ *)
(** ** Sections that list names *)

Lemma for_each_emit {A} (body : A -> IO unit) (f : A -> event) (xs : list A) :
  (forall x, body x = emit (f x)) ->
  for_each xs body = (map f xs, inr tt).
Proof.
  intros H. induction xs as [| x xs IH]; simpl; [reflexivity |].
  now rewrite H, IH.
Qed.

Lemma colify_sorted_or_none_run (names : list string) :
  exists r,
    sorted_names names r
    /\ colify_sorted_or_none names = (names_or_none r, inr tt).
Proof.
  destruct (sorted_names_ordered names) as [r [Hr [Hp Hs]]].
  exists r. split; [now split |].
  unfold colify_sorted_or_none. destruct names as [| n names].
  - apply Permutation_nil in Hp. now subst r.
  - rewrite Hr. simpl. destruct r as [| x r]; [| reflexivity].
    apply Permutation_sym, Permutation_nil in Hp. discriminate.
Qed.

(** X5. [print_tags] never raises. For a package with a [tags] attribute
    it hands [colify] the tags in sorted order, each tag as often as the
    attribute holds it; an empty attribute gives an empty list, not
    "None". *)
Theorem print_tags_sorted (pkg : Package) (ts : list string) :
  tags pkg = Some ts ->
  exists r,
    sorted_names ts r
    /\ print_tags pkg
       = ([Cprint sys_stdout ""; Cprint sys_stdout "@*bTags: @."; Colify r 4],
          inr tt).
Proof.
  intros H. destruct (sorted_names_ordered ts) as [r [Hr [Hp Hs]]].
  exists r. split; [now split |].
  unfold print_tags. rewrite H, Hr. reflexivity.
Qed.

Lemma print_tags_sorted_witness :
  tags SampleDriver.zlib_package = Some ["compression"; "build-tools"]
  /\ exists r,
      sorted_names ["compression"; "build-tools"] r
      /\ print_tags SampleDriver.zlib_package
         = ([Cprint sys_stdout ""; Cprint sys_stdout "@*bTags: @."; Colify r 4],
            inr tt).
Proof.
  split; [reflexivity |].
  apply (@print_tags_sorted SampleDriver.zlib_package
                            ["compression"; "build-tools"]).
  reflexivity.
Defined.

Lemma dependencies_section_run (pkg : PackageDetails) (deptype : string) :
  exists r,
    sorted_names (dependencies_of_type pkg deptype) r
    /\ (cprint "" ;;
        cprint (section_title (py_capitalize deptype ++ " Dependencies:")) ;;
        deps <- lift (sorted str_lt (dependencies_of_type pkg deptype)) ;;
        match deps with
        | _ :: _ => emit (Colify deps 4)
        | [] => cprint "    None"
        end)
       = (([Cprint sys_stdout "";
            Cprint sys_stdout
                   (section_title (py_capitalize deptype ++ " Dependencies:"))]
           ++ names_or_none r)%list, inr tt).
Proof.
  destruct (sorted_names_ordered (dependencies_of_type pkg deptype))
    as [r [Hr [Hp Hs]]].
  exists r. split; [now split |].
  rewrite Hr. destruct r; reflexivity.
Qed.

(** X6. [print_dependencies] never raises and writes three sections, for
    the build, link and run dependencies in this order: each holds its
    title and either the names of that type in sorted order or the line
    "None" when there is none. *)
Theorem print_dependencies_sections (pkg : PackageDetails) :
  exists build link run,
    sorted_names (dependencies_of_type pkg "build") build
    /\ sorted_names (dependencies_of_type pkg "link") link
    /\ sorted_names (dependencies_of_type pkg "run") run
    /\ print_dependencies pkg
       = (([Cprint sys_stdout ""; Cprint sys_stdout "@*bBuild Dependencies:@."]
           ++ names_or_none build
           ++ [Cprint sys_stdout ""; Cprint sys_stdout "@*bLink Dependencies:@."]
           ++ names_or_none link
           ++ [Cprint sys_stdout ""; Cprint sys_stdout "@*bRun Dependencies:@."]
           ++ names_or_none run)%list, inr tt).
Proof.
  destruct (dependencies_section_run pkg "build") as [b [Hb Eb]].
  destruct (dependencies_section_run pkg "link") as [l [Hl El]].
  destruct (dependencies_section_run pkg "run") as [r [Hr Er]].
  exists b, l, r. split; [exact Hb |]. split; [exact Hl |]. split; [exact Hr |].
  unfold print_dependencies. cbv beta iota delta [for_each].
  rewrite Eb, El, Er. unfold bind, ret. cbn [app].
  rewrite app_nil_r. reflexivity.
Qed.

(** X7. [print_tests] never raises and writes three sections: for the
    build and the install phase, the callbacks of that phase that are
    attributes of the package, and then the stand-alone test methods; each
    in sorted order, or the line "None" when there is none. A phase whose
    callbacks are absent or empty shows "None". *)
Theorem print_tests_sections
        (test_function_names : PackageDetails -> list string)
        (pkg : PackageDetails) :
  exists build install alone,
    sorted_names (callable_names pkg (build_time_test_callbacks pkg)) build
    /\ sorted_names (callable_names pkg (install_time_test_callbacks pkg)) install
    /\ sorted_names (test_function_names pkg) alone
    /\ print_tests test_function_names pkg
       = (([Cprint sys_stdout "";
            Cprint sys_stdout "@*bAvailable Build Phase Test Methods:@."]
           ++ names_or_none build
           ++ [Cprint sys_stdout "";
               Cprint sys_stdout "@*bAvailable Install Phase Test Methods:@."]
           ++ names_or_none install
           ++ [Cprint sys_stdout "";
               Cprint sys_stdout "@*bStand-Alone/Smoke Test Methods:@."]
           ++ names_or_none alone)%list, inr tt).
Proof.
  assert (Hnames : forall callbacks : option (list string),
             match callbacks with
             | Some ((_ :: _) as callbacks) =>
                 filter (truthy_attribute pkg) callbacks
             | _ => []
             end = callable_names pkg callbacks).
  { intros [[| c l] |]; reflexivity. }
  destruct (colify_sorted_or_none_run
              (callable_names pkg (build_time_test_callbacks pkg)))
    as [b [Hb Eb]].
  destruct (colify_sorted_or_none_run
              (callable_names pkg (install_time_test_callbacks pkg)))
    as [i [Hi Ei]].
  destruct (colify_sorted_or_none_run (test_function_names pkg)) as [a [Ha Ea]].
  exists b, i, a. split; [exact Hb |]. split; [exact Hi |]. split; [exact Ha |].
  unfold print_tests. cbv beta iota delta [for_each].
  rewrite !Hnames, Eb, Ei, Ea. unfold bind, ret, cprint, emit. cbn [app].
  rewrite ?app_nil_r, <- ?app_assoc. reflexivity.
Qed.

Lemma provided_item_lt_total (Spec_lt : Spec -> Spec -> bool)
      (a b : Spec * list Spec) :
  exists c, provided_item_lt Spec_lt a b = inr c.
Proof.
  unfold provided_item_lt.
  destruct (Spec_eq_dec (fst a) (fst b)); [| eauto].
  destruct (spec_subset (snd a) (snd b) && spec_subset (snd b) (snd a))%bool;
    eauto.
Qed.



(* ------------------------------------------------------------------ *)
(** ** The version report *)

Section VersionReport.

Variable cescape : string -> string.
Variable VERSION_COLOR : string.
Variable Version_lt : Version -> Version -> bool.
Variable preferred_version : Package -> Version.
Variable for_package_version : Package -> Version -> string.

(** The loop over the versions keeps their order and sends each version
    to one of the two lists, by its [deprecated] flag. *)
Lemma split_versions_filter (pkg : Package) (vs : list Version) :
  forall (url : string) (safe deprecated : list (Version * string)),
    split_versions for_package_version pkg vs url safe deprecated
    = ((safe
        ++ map (fun v => (v, if has_code pkg then for_package_version pkg v
                             else url))
               (filter (fun v => negb (is_deprecated pkg v)) vs))%list,
       (deprecated
        ++ map (fun v => (v, if has_code pkg then for_package_version pkg v
                             else url))
               (filter (is_deprecated pkg) vs))%list).
Proof.
  induction vs as [| v vs IH]; simpl; intros url safe deprecated.
  - now rewrite !app_nil_r.
  - destruct (is_deprecated pkg v); simpl; rewrite IH, <- app_assoc; simpl;
      destruct (has_code pkg); reflexivity.
Qed.

Lemma bind_emit_run {B} (ev : event) (f : unit -> IO B) :
  bind (emit ev) f = (ev :: fst (f tt), snd (f tt)).
Proof.
  unfold bind, emit. now destruct (f tt).
Qed.

Lemma bind_value {A B} (x : A) (f : A -> IO B) : bind ([], inr x) f = f x.
Proof.
  unfold bind. now destruct (f x).
Qed.

Lemma version_section_run (title : string) (pad : string -> string)
      (vers : list (Version * string)) :
  (cprint "" ;;
   cprint (section_title (title ++ " versions:  ")) ;;
   match vers with
   | [] => cprint (version VERSION_COLOR "    None")
   | _ :: _ =>
       for_each vers (fun '(v, url) =>
         cprint (version_line cescape VERSION_COLOR pad v url))
   end)
  = (version_section cescape VERSION_COLOR title pad vers, inr tt).
Proof.
  unfold version_section. destruct vers as [| p vers]; [reflexivity |].
  rewrite (@for_each_emit _ _
             (fun '(v, url) =>
                Cprint sys_stdout (version_line cescape VERSION_COLOR pad v url))
             (p :: vers)); [reflexivity | now intros [v url]].
Qed.

(** What [print_versions] writes for a package with versions. *)
Lemma print_versions_run (pkg : Package) :
  versions pkg <> [] ->
  exists pad sorted_versions,
    padder (map version_str (map fst (versions pkg))) 4 = inr pad
    /\ sorted (fun a b => inr (Version_lt a b)) (map fst (versions pkg))
       = inr sorted_versions
    /\ print_versions cescape VERSION_COLOR Version_lt preferred_version
                      for_package_version pkg
       = (([Cprint sys_stdout "";
            Cprint sys_stdout "@*bPreferred version:  @.";
            Cprint sys_stdout
                   (version_line cescape VERSION_COLOR pad (preferred_version pkg)
                      (snd (with_url for_package_version pkg
                                     (preferred_version pkg))))]
           ++ version_section cescape VERSION_COLOR "Safe" pad
                (map (with_url for_package_version pkg)
                     (filter (fun v => negb (is_deprecated pkg v))
                             (rev sorted_versions)))
           ++ version_section cescape VERSION_COLOR "Deprecated" pad
                (map (with_url for_package_version pkg)
                     (filter (is_deprecated pkg) (rev sorted_versions))))%list,
          inr tt).
Proof.
  intros Hne.
  destruct (@sorted_total _ (fun a b => inr (Version_lt a b))
                          (map fst (versions pkg))
                          (fun a b => ex_intro _ (Version_lt a b) eq_refl))
    as [sv Hsv].
  assert (Hpad : exists pad,
             padder (map version_str (map fst (versions pkg))) 4 = inr pad).
  { destruct (versions pkg) as [| p l]; [congruence |].
    unfold padder, py_max, Py.max_of. simpl map. eauto. }
  destruct Hpad as [pad Hpad].
  exists pad, sv. split; [exact Hpad |]. split; [exact Hsv |].
  unfold print_versions.
  destruct (versions pkg) as [| p l] eqn:E; [congruence |].
  rewrite Hpad, Hsv. unfold lift, cprint at 1 2.
  rewrite bind_emit_run. cbv beta. rewrite bind_emit_run. cbv beta.
  rewrite bind_value. unfold cprint at 1. rewrite bind_emit_run. cbv beta.
  rewrite bind_value, split_versions_filter.
  cbv beta iota delta [for_each]. rewrite !version_section_run.
  unfold with_url.
  destruct (has_code pkg); unfold bind, ret; cbn [app fst snd];
    rewrite ?app_nil_r; reflexivity.
Qed.

Lemma print_versions_returns (pkg : Package) :
  returns (print_versions cescape VERSION_COLOR Version_lt preferred_version
                          for_package_version pkg).
Proof.
  destruct (versions pkg) as [| p l] eqn:E.
  - unfold print_versions. rewrite E. now exists tt.
  - assert (Hne : versions pkg <> []) by congruence.
    destruct (print_versions_run pkg Hne) as [pad [sv [_ [_ H]]]].
    rewrite H. now exists tt.
Qed.


End VersionReport.


(* ------------------------------------------------------------------ *)
(** ** The width of the terminal and the alignment of the report *)

Section ReportEdges.

Variable colorize : string -> string.
Variable clen : string -> Z.
Variable cescape : string -> string.
Variable wrap : string -> Z -> string -> string -> list string.

(** A loop body that returns on a mapping with a definition has written
    a block, so the terminal is wide enough. *)
Lemma body_returns_width (name : string) (when_variants : when_variants_t)
      (m indent cols : Z) :
  returns (print_variants_body colorize clen cescape wrap name when_variants
                               m indent cols) ->
  all_variants_of when_variants <> [] ->
  2 < cols.
Proof.
  intros Hret Hne.
  destruct when_variants as [| [when vs] [| p l]].
  - now contradiction Hne.
  - destruct vs as [| first rest]; [now contradiction Hne |].
    unfold returns in Hret. rewrite body_one_condition in Hret.
    simpl snd in Hret.
    apply (fmt_variant_returns_iff colorize clen cescape wrap first when
                                   m indent (Some sys_stdout) cols).
    exact Hret.
  - revert Hret. unfold print_variants_body.
    destruct (Z.ltb_spec 1 (Z.of_nat (List.length ((when, vs) :: p :: l))))
      as [_ | Hn]; [| simpl List.length in Hn; lia].
    intros H.
    apply returns_bind_inv in H. destruct H as [[] [_ H]].
    apply returns_bind_inv in H. destruct H as [[] [_ H]].
    apply returns_bind_inv in H. destruct H as [[] [_ H]].
    apply for_each_returns_inv in H. destruct H as [Hall _].
    assert (Hex : exists w ws v, In (w, ws) ((when, vs) :: p :: l) /\ In v ws).
    { clear Hall. unfold all_variants_of in Hne.
      induction ((when, vs) :: p :: l) as [| [w ws] rest IH];
        [now contradiction Hne |].
      destruct ws as [| v ws].
      - simpl in Hne. destruct (IH Hne) as [w' [ws' [v' [Hin Hv]]]].
        exists w', ws', v'. split; [now right | exact Hv].
      - exists w, (v :: ws), v. split; now left. }
    destruct Hex as [w [ws [v [Hin Hv]]]].
    rewrite Forall_forall in Hall. specialize (Hall _ Hin). simpl in Hall.
    apply for_each_returns_inv in Hall. destruct Hall as [Hall _].
    rewrite Forall_forall in Hall. specialize (Hall _ Hv).
    apply (fmt_variant_returns_iff colorize clen cescape wrap v w
                                   m indent (Some sys_stdout) cols).
    exact Hall.
Qed.

Lemma name_default_lens_not_empty (pkg : Package) :
  name_default_lens colorize clen pkg <> [] ->
  exists name when_variants,
    In (name, when_variants) (variants_by_name pkg)
    /\ all_variants_of when_variants <> [].
Proof.
  unfold name_default_lens.
  induction (variants_by_name pkg) as [| [n wv] rest IH]; simpl;
    [congruence |].
  intros H.
  destruct (flat_map
              (fun '(_, variants) =>
                 map (fun variant => clen (_fmt_name_and_default colorize variant))
                     variants) wv) as [| z zs] eqn:E.
  - destruct (IH H) as [n' [wv' [Hin Hne]]].
    exists n', wv'. split; [now right | exact Hne].
  - exists n, wv. split; [now left |].
    intros Hall. unfold all_variants_of in Hall.
    assert (G : flat_map
                  (fun '(_, variants) =>
                     map (fun variant =>
                            clen (_fmt_name_and_default colorize variant))
                         variants) wv = []).
    { clear E. induction wv as [| [w vs] wv IHwv]; [reflexivity |].
      simpl in Hall. apply app_eq_nil in Hall. destruct Hall as [-> Hall].
      simpl. now apply IHwv. }
    congruence.
Qed.

(** X10. On a terminal of at most two columns the variant report of a
    package with variants never returns: it raises a TypeError, a
    ValueError, an IndexError or a StopIteration. *)
Theorem print_variants_narrow_terminal (pkg : Package) (cols : Z) :
  variants pkg <> [] ->
  cols <= 2 ->
  exists e,
    snd (print_variants colorize clen cescape wrap pkg cols) = inl e
    /\ report_exception e.
Proof.
  intros Hne Hc.
  destruct (snd (print_variants colorize clen cescape wrap pkg cols))
    as [e | []] eqn:E.
  - exists e. split; [reflexivity |].
    exact (print_variants_raises colorize clen cescape wrap pkg cols E).
  - exfalso.
    assert (Hret : returns (print_variants colorize clen cescape wrap pkg cols))
      by (now exists tt).
    destruct (print_variants_output colorize clen cescape wrap pkg cols Hne Hret)
      as [m [Hm [_ Hall]]].
    assert (Hlens : name_default_lens colorize clen pkg <> [])
      by (intros E'; rewrite E' in Hm; discriminate).
    destruct (name_default_lens_not_empty pkg Hlens) as [n [wv [Hin Hwv]]].
    rewrite Forall_forall in Hall. specialize (Hall _ Hin). simpl in Hall.
    assert (2 < cols) by exact (body_returns_width n wv m 4 cols Hall Hwv).
    lia.
Qed.

(** X11. In a report that returns, the width the values column is
    aligned on is the greatest length of a "name [default]" block over
    all definitions of the mapping: no block is longer, and one block has
    exactly this length. Definitions that are not rendered count too. *)
Theorem print_variants_alignment (pkg : Package) (cols : Z) :
  variants pkg <> [] ->
  returns (print_variants colorize clen cescape wrap pkg cols) ->
  exists m,
    output (print_variants colorize clen cescape wrap pkg cols)
    = ([Cprint sys_stdout ""; Cprint sys_stdout (section_title "Variants:")]
       ++ flat_map (fun '(name, when_variants) =>
                      output (print_variants_body colorize clen cescape wrap
                                name when_variants m 4 cols))
                   (variants_by_name pkg))%list
    /\ (forall name when_variants when variants variant,
           In (name, when_variants) (variants_by_name pkg) ->
           In (when, variants) when_variants ->
           In variant variants ->
           clen (_fmt_name_and_default colorize variant) <= m)
    /\ (exists name when_variants when variants variant,
           In (name, when_variants) (variants_by_name pkg)
           /\ In (when, variants) when_variants
           /\ In variant variants
           /\ clen (_fmt_name_and_default colorize variant) = m).
Proof.
  intros Hne Hret.
  destruct (print_variants_output colorize clen cescape wrap pkg cols Hne Hret)
    as [m [Hm [Hout _]]].
  exists m. split; [exact Hout |].
  destruct (py_max_bounds _ Hm) as [Hin Hle].
  assert (Hlens : forall z,
             In z (name_default_lens colorize clen pkg) <->
             exists name when_variants when variants variant,
               In (name, when_variants) (variants_by_name pkg)
               /\ In (when, variants) when_variants
               /\ In variant variants
               /\ clen (_fmt_name_and_default colorize variant) = z).
  { intros z. unfold name_default_lens. rewrite in_flat_map. split.
    - intros [[n wv] [Hn Hz]]. apply in_flat_map in Hz.
      destruct Hz as [[w vs] [Hw Hz]]. apply in_map_iff in Hz.
      destruct Hz as [v [Hv Hvin]]. exists n, wv, w, vs, v. tauto.
    - intros [n [wv [w [vs [v [Hn [Hw [Hv Hz]]]]]]]].
      exists (n, wv). split; [exact Hn |]. apply in_flat_map.
      exists (w, vs). split; [exact Hw |]. apply in_map_iff. eauto. }
  split.
  - intros n wv w vs v Hn Hw Hv. apply Hle. apply Hlens.
    exists n, wv, w, vs, v. tauto.
  - now apply Hlens.
Qed.

End ReportEdges.

Lemma print_variants_narrow_terminal_witness :
  variants Sample.pkg_two_conditions <> []
  /\ 2 <= 2
  /\ exists e,
      snd (print_variants Sample.colorize Sample.clen Sample.cescape Sample.wrap
                          Sample.pkg_two_conditions 2) = inl e
      /\ report_exception e.
Proof.
  assert (H1 : variants Sample.pkg_two_conditions <> []) by discriminate.
  assert (H2 : 2 <= 2) by lia.
  split; [exact H1 |]. split; [exact H2 |].
  exact (@print_variants_narrow_terminal
           Sample.colorize Sample.clen Sample.cescape Sample.wrap
           Sample.pkg_two_conditions 2 H1 H2).
Defined.

Lemma print_variants_alignment_witness :
  variants Sample.pkg_unsorted <> []
  /\ returns (print_variants Sample.colorize Sample.clen Sample.cescape Sample.wrap
                             Sample.pkg_unsorted 80)
  /\ exists m,
      output (print_variants Sample.colorize Sample.clen Sample.cescape
                             Sample.wrap Sample.pkg_unsorted 80)
      = ([Cprint sys_stdout ""; Cprint sys_stdout (section_title "Variants:")]
         ++ flat_map (fun '(name, when_variants) =>
                        output (print_variants_body
                                  Sample.colorize Sample.clen Sample.cescape
                                  Sample.wrap name when_variants m 4 80))
                     (variants_by_name Sample.pkg_unsorted))%list
      /\ (forall name when_variants when variants variant,
             In (name, when_variants) (variants_by_name Sample.pkg_unsorted) ->
             In (when, variants) when_variants ->
             In variant variants ->
             Sample.clen (_fmt_name_and_default Sample.colorize variant) <= m)
      /\ (exists name when_variants when variants variant,
             In (name, when_variants) (variants_by_name Sample.pkg_unsorted)
             /\ In (when, variants) when_variants
             /\ In variant variants
             /\ Sample.clen (_fmt_name_and_default Sample.colorize variant) = m).
Proof.
  assert (H1 : variants Sample.pkg_unsorted <> []) by discriminate.
  assert (H2 : returns (print_variants Sample.colorize Sample.clen Sample.cescape
                                       Sample.wrap Sample.pkg_unsorted 80))
    by (exists tt; reflexivity).
  split; [exact H1 |]. split; [exact H2 |].
  exact (@print_variants_alignment
           Sample.colorize Sample.clen Sample.cescape Sample.wrap
           Sample.pkg_unsorted 80 H1 H2).
Defined.

Lemma print_variants_returns_iff_witness :
  variants Sample.pkg_two_conditions <> []
  /\ 2 < 80
  /\ (returns (print_variants Sample.colorize Sample.clen Sample.cescape
                              Sample.wrap Sample.pkg_two_conditions 80)
      <-> name_default_lens Sample.colorize Sample.clen
                            Sample.pkg_two_conditions <> []
          /\ Forall (fun '(_, when_variants) => renderable when_variants)
                    (variants_by_name Sample.pkg_two_conditions)).
Proof.
  assert (H1 : variants Sample.pkg_two_conditions <> []) by discriminate.
  assert (H2 : 2 < 80) by lia.
  split; [exact H1 |]. split; [exact H2 |].
  exact (@print_variants_returns_iff
           Sample.colorize Sample.clen Sample.cescape Sample.wrap
           Sample.pkg_two_conditions 80 H1 H2).
Defined.

(* ------------------------------------------------------------------ *)
(** ** The widths the constructor stores *)

(** X13. When [self.column_widths] is readable, the constructor returns
    and the widths it stores never exceed the content widths nor the caps
    of 30, 30 and 20; the description width is at least 6 unless the
    content is narrower; the format pads the first three columns to their
    width plus 4; and running the constructor again on the object it
    returned changes nothing. *)
Theorem column_widths_bounded
        (s : VariantFormatter.self) (pkg : Package) (cols w0 w1 w2 w3 : Z) :
  VariantFormatter.column_widths s = Some (w0, w1, w2, w3) ->
  exists s' c0 c1 c2 c3,
    VariantFormatter.__init__ s pkg cols = inr s'
    /\ VariantFormatter.column_widths s' = Some (c0, c1, c2, c3)
    /\ c0 <= Z.min w0 30 /\ c1 <= Z.min w1 30 /\ c2 <= Z.min w2 20
    /\ Z.min w3 6 <= c3 <= w3
    /\ VariantFormatter.fmt s'
       = Some ("%-" ++ Py.str_int (c0 + 4) ++ "s%-" ++ Py.str_int (c1 + 4)
               ++ "s%-" ++ Py.str_int (c2 + 4) ++ "s%s")
    /\ VariantFormatter.__init__ s' pkg cols = inr s'.
Proof.
  intros Hw.
  unfold VariantFormatter.__init__ at 1, VariantFormatter.get_column_widths.
  simpl. rewrite Hw.
  eexists. exists (Z.min w0 30), (Z.min w1 30), (Z.min w2 20),
             (Z.min w3 (Z.max cols 70 - Z.min w0 30 - Z.min w2 20 - 14)).
  split; [reflexivity |]. simpl.
  split; [reflexivity |].
  split; [lia |]. split; [lia |]. split; [lia |]. split; [lia |].
  split; [reflexivity |].
  unfold VariantFormatter.__init__, VariantFormatter.get_column_widths. simpl.
  rewrite (Z.min_l (Z.min w0 30) 30), (Z.min_l (Z.min w1 30) 30),
    (Z.min_l (Z.min w2 20) 20) by lia.
  rewrite (Z.min_l (Z.min w3 (Z.max cols 70 - Z.min w0 30 - Z.min w2 20 - 14))
                   (Z.max cols 70 - Z.min w0 30 - Z.min w2 20 - 14)) by lia.
  reflexivity.
Qed.

Lemma column_widths_bounded_witness :
  VariantFormatter.column_widths (Sample.with_column_widths (40, 12, 25, 100))
  = Some (40, 12, 25, 100)
  /\ exists s' c0 c1 c2 c3,
      VariantFormatter.__init__
        (Sample.with_column_widths (40, 12, 25, 100)) Sample.pkg_empty 120
      = inr s'
      /\ VariantFormatter.column_widths s' = Some (c0, c1, c2, c3)
      /\ c0 <= Z.min 40 30 /\ c1 <= Z.min 12 30 /\ c2 <= Z.min 25 20
      /\ Z.min 100 6 <= c3 <= 100
      /\ VariantFormatter.fmt s'
         = Some ("%-" ++ Py.str_int (c0 + 4) ++ "s%-" ++ Py.str_int (c1 + 4)
                 ++ "s%-" ++ Py.str_int (c2 + 4) ++ "s%s")
      /\ VariantFormatter.__init__ s' Sample.pkg_empty 120 = inr s'.
Proof.
  split; [reflexivity |].
  apply (@column_widths_bounded
           (Sample.with_column_widths (40, 12, 25, 100)) Sample.pkg_empty
           120 40 12 25 100).
  reflexivity.
Defined.

(* ------------------------------------------------------------------ *)
(** ** The driver *)

Lemma for_each_returns_iff {A} (body : A -> IO unit) (xs : list A) :
  returns (for_each xs body) <-> Forall (fun x => returns (body x)) xs.
Proof.
  split; [intros H; now apply for_each_returns_inv | apply for_each_returns_intro].
Qed.

(** A loop stops at the first iteration that raises. *)
Lemma for_each_raises_at {A} (body : A -> IO unit) (pre post : list A) (x : A)
      (e : exn) :
  Forall (fun y => returns (body y)) pre ->
  snd (body x) = inl e ->
  for_each (pre ++ x :: post) body
  = ((flat_map (fun y => output (body y)) pre ++ output (body x))%list, inl e).
Proof.
  intros Hpre Hx. induction Hpre as [| y pre Hy _ IH]; simpl.
  - unfold bind, output. destruct (body x) as [o r]. simpl in Hx. now subst r.
  - rewrite IH. apply returns_unit in Hy. unfold bind, output.
    destruct (body y) as [o r]. simpl in Hy. subst r.
    now rewrite <- app_assoc.
Qed.

Lemma print_maintainers_returns (pkg : Package) : returns (print_maintainers pkg).
Proof.
  unfold print_maintainers.
  destruct (0 <? Z.of_nat (List.length (maintainers pkg))); now exists tt.
Qed.

Lemma print_phases_returns (pkg : Package) : returns (print_phases pkg).
Proof.
  unfold print_phases.
  destruct (builder_phases pkg) as [[| p l] |]; now exists tt.
Qed.

Lemma print_tags_returns (pkg : Package) : returns (print_tags pkg).
Proof.
  unfold print_tags. destruct (tags pkg) as [ts |]; [| now exists tt].
  destruct (sorted_names_ordered ts) as [r [Hr _]]. rewrite Hr. now exists tt.
Qed.

Lemma print_detectable_returns (pkg : PackageDetails) :
  returns (print_detectable pkg).
Proof.
  unfold print_detectable.
  destruct (has_executables pkg || has_libraries pkg)%bool; now exists tt.
Qed.

Lemma print_dependencies_returns (pkg : PackageDetails) :
  returns (print_dependencies pkg).
Proof.
  unfold print_dependencies. apply for_each_returns_intro.
  apply Forall_forall. intros deptype _.
  destruct (dependencies_section_run pkg deptype) as [r [_ ->]]. now exists tt.
Qed.

Lemma print_tests_returns (test_function_names : PackageDetails -> list string)
      (pkg : PackageDetails) :
  returns (print_tests test_function_names pkg).
Proof.
  assert (Hc : forall names, returns (colify_sorted_or_none names)).
  { intros names. destruct (colify_sorted_or_none_run names) as [r [_ ->]].
    now exists tt. }
  unfold print_tests.
  apply returns_bind_intro with (x := tt).
  - apply returns_unit. apply for_each_returns_intro.
    apply Forall_forall. intros [callbacks phase] _.
    apply returns_bind_intro with (x := tt); [reflexivity |].
    apply returns_bind_intro with (x := tt); [reflexivity |]. apply Hc.
  - apply returns_bind_intro with (x := tt); [reflexivity |].
    apply returns_bind_intro with (x := tt); [reflexivity |]. apply Hc.
Qed.

Lemma print_virtuals_returns (Spec_lt : Spec -> Spec -> bool)
      (colorized : Spec -> string) (pkg : PackageDetails) :
  returns (print_virtuals Spec_lt colorized pkg).
Proof.
  unfold print_virtuals.
  apply returns_bind_intro with (x := tt); [reflexivity |].
  apply returns_bind_intro with (x := tt); [reflexivity |].
  destruct (provided pkg) as [| p l]; [now exists tt |].
  destruct (@sorted_total _ (provided_item_lt Spec_lt) (p :: l)
                          (provided_item_lt_total Spec_lt)) as [items ->].
  apply returns_bind_intro with (x := items); [reflexivity |].
  apply for_each_returns_intro. apply Forall_forall.
  intros [when specs] _. now exists tt.
Qed.

Section DriverProperties.

Variable colorize : string -> string.
Variable clen : string -> Z.
Variable cescape : string -> string.
Variable wrap : string -> Z -> string -> string -> list string.
Variable VERSION_COLOR : string.
Variable Version_lt : Version -> Version -> bool.
Variable preferred_version : Package -> Version.
Variable for_package_version : Package -> Version -> string.
Variable format_doc : PackageDetails -> Z -> string.
Variable test_function_names : PackageDetails -> list string.
Variable Spec_lt : Spec -> Spec -> bool.
Variable colorized : Spec -> string.
Variable package_of : string -> PackageDetails.

Local Abbreviation run_info :=
  (info colorize clen cescape wrap VERSION_COLOR Version_lt preferred_version
        for_package_version format_doc test_function_names Spec_lt colorized
        package_of).
Local Abbreviation the_sections :=
  (sections colorize clen cescape wrap VERSION_COLOR Version_lt
            preferred_version for_package_version test_function_names Spec_lt
            colorized).
Local Abbreviation variants_section :=
  (print_variants colorize clen cescape wrap).

(** [info] is the preamble, the loop over the sections and a last empty
    line. *)
Lemma info_run (args : Args.t) (cols : Z) :
  run_info args cols
  = (let pkg := package_of (Args.package_name args) in
     let loop := for_each (the_sections args pkg cols)
                          (fun '((print_it, func) : bool * IO unit) =>
                             if print_it then func else ret tt) in
     ((preamble cescape format_doc pkg ++ output loop
       ++ match snd loop with inr _ => [Cprint sys_stdout ""] | inl _ => [] end)%list,
      snd loop)).
Proof.
  unfold info, preamble. cbv zeta.
  set (loop := for_each _ _).
  destruct (doc (package_of (Args.package_name args))) as [[| c d] |];
    unfold cprint; rewrite !bind_emit_run; cbv beta;
    unfold bind, emit, output; destruct loop as [o [e | []]]; simpl;
    rewrite ?app_nil_r; reflexivity.
Qed.

(** Every section but the variant report returns on every package. *)
Lemma sections_return (args : Args.t) (pkg : PackageDetails) (cols : Z) :
  Forall (fun '((print_it, func) : bool * IO unit) => returns (if print_it then func else ret tt))
         (the_sections args pkg cols)
  <-> ((Args.all args || negb (Args.no_variants args))%bool = true ->
       returns (variants_section (package pkg) cols)).
Proof.
  assert (R : forall (b : bool) (f : IO unit),
             returns f -> returns (if b then f else ret tt)).
  { intros [|] f Hf; [exact Hf | now exists tt]. }
  unfold sections. split.
  - intros H Hsel.
    do 4 (apply Forall_inv_tail in H). apply Forall_inv in H.
    now rewrite Hsel in H.
  - intros H.
    repeat (apply Forall_cons || apply Forall_nil);
      try (apply R;
           first [ apply print_maintainers_returns
                 | apply print_detectable_returns
                 | apply print_tags_returns
                 | apply print_versions_returns
                 | apply print_phases_returns
                 | apply print_dependencies_returns
                 | apply print_virtuals_returns
                 | apply print_tests_returns ]).
    destruct (Args.all args || negb (Args.no_variants args))%bool;
      [now apply H | now exists tt].
Qed.

(** X14. [info] returns exactly when the variant report is not selected
    or returns: no other section raises. When it returns it has written
    the preamble, then what the selected sections write, in the fixed
    order maintainers, detectable, tags, versions, variants, phases,
    dependencies, virtuals, tests, and a last empty line. *)
Theorem info_returns_iff (args : Args.t) (cols : Z) :
  (returns (run_info args cols)
   <-> ((Args.all args || negb (Args.no_variants args))%bool = true ->
        returns (variants_section
                   (package (package_of (Args.package_name args))) cols)))
  /\ (returns (run_info args cols) ->
      output (run_info args cols)
      = (preamble cescape format_doc (package_of (Args.package_name args))
         ++ selected_output
              (the_sections args (package_of (Args.package_name args)) cols)
         ++ [Cprint sys_stdout ""])%list).
Proof.
  rewrite info_run. cbv zeta.
  set (pkg := package_of (Args.package_name args)).
  set (loop := for_each _ _).
  assert (Hloop : returns loop
                  <-> ((Args.all args || negb (Args.no_variants args))%bool = true ->
                       returns (variants_section (package pkg) cols))).
  { unfold loop. rewrite for_each_returns_iff, <- sections_return.
    split; intros H; (eapply Forall_impl; [| exact H]); now intros [b f]. }
  split.
  - rewrite <- Hloop. unfold returns. simpl snd. reflexivity.
  - intros Hret. unfold returns in Hret. cbn [snd] in Hret.
    assert (Hl : returns loop) by exact Hret.
    destruct Hret as [[] Hs].
    unfold output at 1. cbn [fst]. rewrite Hs.
    unfold loop in Hl |- *.
    apply for_each_returns_inv in Hl. destruct Hl as [_ Hout].
    rewrite Hout.
    f_equal. f_equal. unfold selected_output.
    apply flat_map_ext. intros [[|] f]; reflexivity.
Qed.

(** X15. The sections are not isolated from one another: when the
    variant report is selected and raises, [info] raises the same
    exception. It has then written the preamble, the selected sections
    before the variant report and what the variant report wrote before it
    raised; nothing of the phases, dependencies, virtuals and tests
    sections is written, nor the last empty line. *)
Theorem info_stops_at_variants_error (args : Args.t) (cols : Z) (e : exn) :
  (Args.all args || negb (Args.no_variants args))%bool = true ->
  snd (variants_section (package (package_of (Args.package_name args))) cols)
  = inl e ->
  run_info args cols
  = ((preamble cescape format_doc (package_of (Args.package_name args))
      ++ selected_output
           (firstn 4 (the_sections args (package_of (Args.package_name args))
                                   cols))
      ++ output (variants_section
                   (package (package_of (Args.package_name args))) cols))%list,
     inl e).
Proof.
  intros Hsel He. rewrite info_run. cbv zeta.
  set (pkg := package_of (Args.package_name args)) in *.
  assert (Hsplit : the_sections args pkg cols
                   = (firstn 4 (the_sections args pkg cols)
                      ++ (true, variants_section (package pkg) cols)
                      :: skipn 5 (the_sections args pkg cols))%list).
  { unfold sections. simpl. now rewrite Hsel. }
  rewrite Hsplit at 1 2 3.
  rewrite (@for_each_raises_at _
             (fun '((print_it, func) : bool * IO unit) => if print_it then func else ret tt)
             (firstn 4 (the_sections args pkg cols))
             (skipn 5 (the_sections args pkg cols))
             (true, variants_section (package pkg) cols) e).
  - unfold output at 1. cbn [fst snd]. rewrite app_nil_r.
    f_equal. f_equal. f_equal. unfold selected_output.
    apply flat_map_ext. intros [[|] f]; reflexivity.
  - unfold sections. simpl firstn.
    repeat (apply Forall_cons || apply Forall_nil);
      match goal with
      | |- returns (if ?b then _ else _) =>
          destruct b; [| now exists tt]
      end;
      first [ apply print_maintainers_returns
            | apply print_detectable_returns
            | apply print_tags_returns
            | apply print_versions_returns ].
  - exact He.
Qed.

(** X16. Under [--all] the other flags are ignored: two command lines for
    the same package that both carry it produce the same report. *)
Theorem info_all_overrides (args args' : Args.t) (cols : Z) :
  Args.all args = true ->
  Args.all args' = true ->
  Args.package_name args = Args.package_name args' ->
  run_info args cols = run_info args' cols.
Proof.
  intros Ha Ha' Hp. unfold info, sections. rewrite Ha, Ha', Hp. reflexivity.
Qed.

End DriverProperties.

Lemma info_returns_iff_witness :
  returns (info Sample.colorize Sample.clen Sample.cescape Sample.wrap
                SampleDriver.VERSION_COLOR SampleDriver.Version_lt
                SampleDriver.preferred_version SampleDriver.for_package_version
                SampleDriver.format_doc SampleDriver.test_function_names
                SampleDriver.Spec_lt SampleDriver.colorized
                SampleDriver.package_of SampleDriver.args_all 80)
  /\ output (info Sample.colorize Sample.clen Sample.cescape Sample.wrap
                  SampleDriver.VERSION_COLOR SampleDriver.Version_lt
                  SampleDriver.preferred_version SampleDriver.for_package_version
                  SampleDriver.format_doc SampleDriver.test_function_names
                  SampleDriver.Spec_lt SampleDriver.colorized
                  SampleDriver.package_of SampleDriver.args_all 80)
     = (preamble Sample.cescape SampleDriver.format_doc
                 (SampleDriver.package_of (Args.package_name SampleDriver.args_all))
        ++ selected_output
             (sections Sample.colorize Sample.clen Sample.cescape Sample.wrap
                       SampleDriver.VERSION_COLOR SampleDriver.Version_lt
                       SampleDriver.preferred_version
                       SampleDriver.for_package_version
                       SampleDriver.test_function_names SampleDriver.Spec_lt
                       SampleDriver.colorized SampleDriver.args_all
                       (SampleDriver.package_of
                          (Args.package_name SampleDriver.args_all)) 80)
        ++ [Cprint sys_stdout ""])%list.
Proof.
  assert (H : returns (info Sample.colorize Sample.clen Sample.cescape Sample.wrap
                            SampleDriver.VERSION_COLOR SampleDriver.Version_lt
                            SampleDriver.preferred_version
                            SampleDriver.for_package_version
                            SampleDriver.format_doc
                            SampleDriver.test_function_names
                            SampleDriver.Spec_lt SampleDriver.colorized
                            SampleDriver.package_of SampleDriver.args_all 80))
    by (exists tt; reflexivity).
  split; [exact H |].
  exact (proj2 (@info_returns_iff
                  Sample.colorize Sample.clen Sample.cescape Sample.wrap
                  SampleDriver.VERSION_COLOR SampleDriver.Version_lt
                  SampleDriver.preferred_version SampleDriver.for_package_version
                  SampleDriver.format_doc SampleDriver.test_function_names
                  SampleDriver.Spec_lt SampleDriver.colorized
                  SampleDriver.package_of SampleDriver.args_all 80) H).
Defined.

Lemma info_stops_at_variants_error_witness :
  (Args.all SampleDriver.args_all
   || negb (Args.no_variants SampleDriver.args_all))%bool = true
  /\ snd (print_variants Sample.colorize Sample.clen Sample.cescape Sample.wrap
            (package (SampleDriver.package_of
                        (Args.package_name SampleDriver.args_all))) 2)
     = inl ValueError
  /\ info Sample.colorize Sample.clen Sample.cescape Sample.wrap
          SampleDriver.VERSION_COLOR SampleDriver.Version_lt
          SampleDriver.preferred_version SampleDriver.for_package_version
          SampleDriver.format_doc SampleDriver.test_function_names
          SampleDriver.Spec_lt SampleDriver.colorized
          SampleDriver.package_of SampleDriver.args_all 2
     = ((preamble Sample.cescape SampleDriver.format_doc
                  (SampleDriver.package_of
                     (Args.package_name SampleDriver.args_all))
         ++ selected_output
              (firstn 4
                 (sections Sample.colorize Sample.clen Sample.cescape Sample.wrap
                           SampleDriver.VERSION_COLOR SampleDriver.Version_lt
                           SampleDriver.preferred_version
                           SampleDriver.for_package_version
                           SampleDriver.test_function_names SampleDriver.Spec_lt
                           SampleDriver.colorized SampleDriver.args_all
                           (SampleDriver.package_of
                              (Args.package_name SampleDriver.args_all)) 2))
         ++ output (print_variants
                      Sample.colorize Sample.clen Sample.cescape Sample.wrap
                      (package (SampleDriver.package_of
                                  (Args.package_name SampleDriver.args_all)))
                      2))%list,
        inl ValueError).
Proof.
  assert (H1 : (Args.all SampleDriver.args_all
                || negb (Args.no_variants SampleDriver.args_all))%bool = true)
    by reflexivity.
  assert (H2 : snd (print_variants
                      Sample.colorize Sample.clen Sample.cescape Sample.wrap
                      (package (SampleDriver.package_of
                                  (Args.package_name SampleDriver.args_all))) 2)
               = inl ValueError) by reflexivity.
  split; [exact H1 |]. split; [exact H2 |].
  exact (@info_stops_at_variants_error
           Sample.colorize Sample.clen Sample.cescape Sample.wrap
           SampleDriver.VERSION_COLOR SampleDriver.Version_lt
           SampleDriver.preferred_version SampleDriver.for_package_version
           SampleDriver.format_doc SampleDriver.test_function_names
           SampleDriver.Spec_lt SampleDriver.colorized
           SampleDriver.package_of SampleDriver.args_all 2 ValueError H1 H2).
Defined.

Lemma info_all_overrides_witness :
  Args.all SampleDriver.args_all = true
  /\ Args.all SampleDriver.args_all_no_variants = true
  /\ Args.package_name SampleDriver.args_all
     = Args.package_name SampleDriver.args_all_no_variants
  /\ info Sample.colorize Sample.clen Sample.cescape Sample.wrap
          SampleDriver.VERSION_COLOR SampleDriver.Version_lt
          SampleDriver.preferred_version SampleDriver.for_package_version
          SampleDriver.format_doc SampleDriver.test_function_names
          SampleDriver.Spec_lt SampleDriver.colorized
          SampleDriver.package_of SampleDriver.args_all 80
     = info Sample.colorize Sample.clen Sample.cescape Sample.wrap
            SampleDriver.VERSION_COLOR SampleDriver.Version_lt
            SampleDriver.preferred_version SampleDriver.for_package_version
            SampleDriver.format_doc SampleDriver.test_function_names
            SampleDriver.Spec_lt SampleDriver.colorized
            SampleDriver.package_of SampleDriver.args_all_no_variants 80.
Proof.
  assert (H1 : Args.all SampleDriver.args_all = true) by reflexivity.
  assert (H2 : Args.all SampleDriver.args_all_no_variants = true) by reflexivity.
  assert (H3 : Args.package_name SampleDriver.args_all
               = Args.package_name SampleDriver.args_all_no_variants)
    by reflexivity.
  split; [exact H1 |]. split; [exact H2 |]. split; [exact H3 |].
  exact (@info_all_overrides
           Sample.colorize Sample.clen Sample.cescape Sample.wrap
           SampleDriver.VERSION_COLOR SampleDriver.Version_lt
           SampleDriver.preferred_version SampleDriver.for_package_version
           SampleDriver.format_doc SampleDriver.test_function_names
           SampleDriver.Spec_lt SampleDriver.colorized
           SampleDriver.package_of SampleDriver.args_all
           SampleDriver.args_all_no_variants 80 H1 H2 H3).
Defined.

(* ------------------------------------------------------------------ *)
(** ** The column of the values *)

Lemma string_append_assoc (a b c : string) : (a ++ b) ++ c = a ++ b ++ c.
Proof.
  induction a as [| x a IH]; simpl; [reflexivity | now rewrite IH].
Qed.

Lemma drop_append (a b : string) : Py.drop (String.length a) (a ++ b) = b.
Proof.
  induction a as [| x a IH]; simpl; [now destruct b | exact IH].
Qed.

Lemma repeat_space_add (a b : Z) :
  0 <= a -> 0 <= b ->
  Py.repeat (a + b) " " = Py.repeat a " " ++ Py.repeat b " ".
Proof.
  intros Ha Hb. unfold Py.repeat. rewrite Z2Nat.inj_add by lia.
  generalize (Z.to_nat a) as n, (Z.to_nat b) as k. clear.
  assert (C : forall k, String.concat "" (" " :: List.repeat " " k)
                        = " " ++ String.concat "" (List.repeat " " k)).
  { intros [| k]; reflexivity. }
  induction n as [| n IH]; intros k; [reflexivity |].
  change (List.repeat " " (S n + k)) with (" " :: List.repeat " " (n + k)).
  change (List.repeat " " (S n)) with (" " :: List.repeat " " n).
  rewrite !C, IH. now rewrite string_append_assoc.
Qed.

Lemma join_first_indented (sep ind first : string) (rest : list string) :
  Py.join sep ((ind ++ first) :: rest) = ind ++ Py.join sep (first :: rest).
Proof.
  unfold Py.join. destruct rest as [| r rest]; [reflexivity |].
  change (String.concat sep ((ind ++ first) :: r :: rest))
    with ((ind ++ first) ++ sep ++ String.concat sep (r :: rest)).
  now rewrite string_append_assoc.
Qed.

(** X17. When [textwrap.wrap] starts its first line with the indent it
    is given, the slice [_fmt_variant] takes removes from that indent
    what the name and default occupy: the values follow "name [default]"
    after four spaces and as many more as the block is shorter than the
    longest one, so that they start in the same column for every
    variant. *)
Theorem values_column_aligned
        (colorize : string -> string) (clen : string -> Z)
        (wrap : string -> Z -> string -> string -> list string)
        (variant : Variant) (sorted_values : list pyval)
        (max_name_default_len indent cols : Z)
        (first : string) (rest : list string) :
  0 <= indent ->
  0 <= clen (_fmt_name_and_default colorize variant) <= max_name_default_len ->
  wrap (Py.join ", " (map _fmt_value sorted_values)) (cols - 2)
       (Py.repeat (indent + max_name_default_len + 4) " ")
       (Py.repeat (indent + max_name_default_len + 4) " ")
  = (Py.repeat (indent + max_name_default_len + 4) " " ++ first) :: rest ->
  values_line colorize clen wrap variant sorted_values
              max_name_default_len indent cols
  = Py.repeat indent " " ++ _fmt_name_and_default colorize variant
    ++ Py.repeat 4 " " ++ "@c{"
    ++ Py.repeat (max_name_default_len
                  - clen (_fmt_name_and_default colorize variant)) " "
    ++ Py.join Py.newline (first :: rest) ++ "}".
Proof.
  intros Hi Hl Hw. unfold values_line. rewrite Hw, join_first_indented.
  set (len := clen (_fmt_name_and_default colorize variant)) in *.
  replace (indent + max_name_default_len + 4)
    with ((indent + len + 4) + (max_name_default_len - len)) by lia.
  rewrite repeat_space_add by lia.
  rewrite string_append_assoc.
  unfold Py.slice_from.
  destruct (Z.leb_spec 0 (indent + len + 4)) as [_ | H]; [| lia].
  assert (E : Z.to_nat (indent + len + 4)
              = String.length (Py.repeat (indent + len + 4) " ")).
  { assert (H0 : 0 <= indent + len + 4) by lia.
    assert (H := @len_repeat_space (indent + len + 4) H0).
    unfold Py.len in H. lia. }
  rewrite E, drop_append, string_append_assoc. reflexivity.
Qed.

Lemma values_column_aligned_witness :
  0 <= 4
  /\ 0 <= Sample.clen (_fmt_name_and_default Sample.colorize Sample.shared_on) <= 25
  /\ Sample.wrap (Py.join ", " (map _fmt_value [PBool false; PBool true])) (80 - 2)
                 (Py.repeat (4 + 25 + 4) " ") (Py.repeat (4 + 25 + 4) " ")
     = [Py.repeat (4 + 25 + 4) " " ++ "false, true"]
  /\ values_line Sample.colorize Sample.clen Sample.wrap Sample.shared_on
                 [PBool false; PBool true] 25 4 80
     = Py.repeat 4 " " ++ _fmt_name_and_default Sample.colorize Sample.shared_on
       ++ Py.repeat 4 " " ++ "@c{"
       ++ Py.repeat (25 - Sample.clen (_fmt_name_and_default Sample.colorize
                                                             Sample.shared_on)) " "
       ++ Py.join Py.newline ["false, true"] ++ "}".
Proof.
  assert (H1 : 0 <= 4) by lia.
  assert (H2 : 0 <= Sample.clen (_fmt_name_and_default Sample.colorize
                                                       Sample.shared_on) <= 25)
    by (vm_compute; split; discriminate).
  assert (H3 : Sample.wrap (Py.join ", " (map _fmt_value [PBool false; PBool true]))
                           (80 - 2) (Py.repeat (4 + 25 + 4) " ")
                           (Py.repeat (4 + 25 + 4) " ")
               = [Py.repeat (4 + 25 + 4) " " ++ "false, true"]) by reflexivity.
  split; [exact H1 |]. split; [exact H2 |]. split; [exact H3 |].
  exact (@values_column_aligned
           Sample.colorize Sample.clen Sample.wrap Sample.shared_on
           [PBool false; PBool true] 25 4 80 "false, true" [] H1 H2 H3).
Defined.
